(** * LIA backend: execution safety and admission control

    A shallow embedding of the safety-relevant parts of the backend:
    - [backend/command_executor.py]: [_normalize_path], [_delete_file],
      [_execute_command], [_try_python_fallback];
    - [backend/python_executor.py]: [can_handle_with_python], [is_safe_code],
      [execute_python_code], [execute_with_python];
    - [backend/main.py]: [_allow_request], [LRUCacheTTL].

    Conventions.  A Python [str] is a [string]; its characters are the
    bytes of the text, so lengths, slices and case folding agree with
    Python on ASCII text.  A [dict] is a [gmap]; an [OrderedDict] is an
    association list from oldest to newest; a [deque] is a list whose
    head is the left end.  Wall-clock readings ([time.time()]) are
    rationals and are passed to the functions that read the clock.
    Everything outside the repository (the file system's path
    resolution, child processes, the language model) is a variable of
    the section that uses it, and every call to a child process is
    recorded in a log returned with the result. *)

From Stdlib Require Import ZArith QArith Lqa Ascii DecimalString.
From stdpp Require Import gmap strings list fin_maps sorting.

Local Open Scope Z_scope.

(** ** Python string primitives *)
Module PyStr.

(** [str.lower] on one character. *)
Definition lower_char (c : ascii) : ascii :=
  let n := nat_of_ascii c in
  if ((65 <=? n) && (n <=? 90))%nat then ascii_of_nat (n + 32) else c.

(** [s.lower()]. *)
Fixpoint lower (s : string) : string :=
  match s with
  | EmptyString => EmptyString
  | String c s' => String (lower_char c) (lower s')
  end.

(** [c.isspace()]: tab, newline, vertical tab, form feed, carriage
    return, the four separators 28-31 and the space. *)
Definition isspace (c : ascii) : bool :=
  let n := nat_of_ascii c in
  (((9 <=? n) && (n <=? 13)) || ((28 <=? n) && (n <=? 32)))%nat.

(** [s.lstrip()]. *)
Fixpoint lstrip (s : string) : string :=
  match s with
  | EmptyString => EmptyString
  | String c s' => if isspace c then lstrip s' else s
  end.

(** [s.rstrip()]. *)
Fixpoint rstrip (s : string) : string :=
  match s with
  | EmptyString => EmptyString
  | String c s' =>
      match rstrip s' with
      | EmptyString => if isspace c then EmptyString else String c EmptyString
      | r => String c r
      end
  end.

(** [s.strip()]. *)
Definition strip (s : string) : string := rstrip (lstrip s).

(** [s.split()]: the maximal runs of non-whitespace characters. *)
Fixpoint split (s : string) : list string :=
  match s with
  | EmptyString => []
  | String c s' =>
      if isspace c then split s'
      else
        match s' with
        | EmptyString => [String c EmptyString]
        | String c' _ =>
            if isspace c' then String c EmptyString :: split s'
            else
              match split s' with
              | w :: ws => String c w :: ws
              | [] => [String c EmptyString]
              end
        end
  end.

(** [s.startswith(p)]. *)
Fixpoint startswith (p s : string) : bool :=
  match p, s with
  | EmptyString, _ => true
  | String _ _, EmptyString => false
  | String a p', String b s' => Ascii.eqb a b && startswith p' s'
  end.

(** [p in s]: [p] occurs in [s] as a substring. *)
Fixpoint contains (p s : string) : bool :=
  startswith p s ||
  match s with
  | EmptyString => false
  | String _ s' => contains p s'
  end.

(** [x in l] for a list of strings. *)
Definition mem (x : string) (l : list string) : bool :=
  existsb (String.eqb x) l.

(** [sep.join(l)]. *)
Definition join (sep : string) (l : list string) : string :=
  String.concat sep l.

(** [s[:n]]. *)
Fixpoint take (n : nat) (s : string) : string :=
  match n, s with
  | O, _ => EmptyString
  | S _, EmptyString => EmptyString
  | S n', String c s' => String c (take n' s')
  end.

(** [len(s)]. *)
Definition len (s : string) : Z := Z.of_nat (String.length s).

(** [c * n]: a character repeated. *)
Fixpoint replicate_char (n : nat) (c : ascii) : string :=
  match n with
  | O => EmptyString
  | S n' => String c (replicate_char n' c)
  end.

(** [str(n)] for an integer. *)
Definition of_Z (n : Z) : string := NilZero.string_of_int (Z.to_int n).

(** Truth value of a string: [bool(s)]. *)
Definition truthy (s : string) : bool :=
  match s with EmptyString => false | _ => true end.

End PyStr.

(** ** [backend/models.py] *)
Module Models.

Inductive CommandType : Set :=
  | OPEN_FOLDER | OPEN_FILE | LIST_FILES | CREATE_FILE | WRITE_FILE
  | READ_FILE | DELETE_FILE | SEARCH_FILES | COPY_FILE | MOVE_FILE
  | RENAME_FILE | GET_INFO | EXECUTE_COMMAND | CHAT | HELP | UNKNOWN.

(** The value of a [CommandType] member (the enum derives from [str]). *)
Definition CommandType_value (t : CommandType) : string :=
  match t with
  | OPEN_FOLDER => "open_folder" | OPEN_FILE => "open_file"
  | LIST_FILES => "list_files" | CREATE_FILE => "create_file"
  | WRITE_FILE => "write_file" | READ_FILE => "read_file"
  | DELETE_FILE => "delete_file" | SEARCH_FILES => "search_files"
  | COPY_FILE => "copy_file" | MOVE_FILE => "move_file"
  | RENAME_FILE => "rename_file" | GET_INFO => "get_info"
  | EXECUTE_COMMAND => "execute_command" | CHAT => "chat"
  | HELP => "help" | UNKNOWN => "unknown"
  end.

(** [str(t)]: a mixed-in enum prints as [ClassName.MEMBER]. *)
Definition CommandType_str (t : CommandType) : string :=
  "CommandType." +:+
  match t with
  | OPEN_FOLDER => "OPEN_FOLDER" | OPEN_FILE => "OPEN_FILE"
  | LIST_FILES => "LIST_FILES" | CREATE_FILE => "CREATE_FILE"
  | WRITE_FILE => "WRITE_FILE" | READ_FILE => "READ_FILE"
  | DELETE_FILE => "DELETE_FILE" | SEARCH_FILES => "SEARCH_FILES"
  | COPY_FILE => "COPY_FILE" | MOVE_FILE => "MOVE_FILE"
  | RENAME_FILE => "RENAME_FILE" | GET_INFO => "GET_INFO"
  | EXECUTE_COMMAND => "EXECUTE_COMMAND" | CHAT => "CHAT"
  | HELP => "HELP" | UNKNOWN => "UNKNOWN"
  end.

(** The payloads that the handlers modelled here put in
    [CommandResult.data]. *)
Inductive Data : Type :=
  | PathData (path : string)
  | ExecData (stdout stderr : string) (returncode : Z) (command : string)
             (execution_time : string)
  | PythonData (output : string) (error : option string)
               (python_code : string).

Record CommandResult : Type := mkCommandResult {
  success : bool;
  message : string;
  data : option Data;
  command_type : CommandType;
  python_mode : bool;
  python_code : option string
}.

(** [CommandResult(success=.., message=.., command_type=..)] with the
    defaults of the other fields. *)
Definition result (ok : bool) (msg : string) (t : CommandType)
  : CommandResult :=
  mkCommandResult ok msg None t false None.

Definition result_with (ok : bool) (msg : string) (d : Data)
    (t : CommandType) : CommandResult :=
  mkCommandResult ok msg (Some d) t false None.

End Models.

(** ** [backend/command_executor.py] and [backend/python_executor.py]:
       the interface to child processes *)
Module Subprocess.

(** What is run: a command line for the shell, an argument vector, or
    [python3] on a temporary file with the given contents. *)
Inductive Args : Type :=
  | CommandLine (command : string)
  | Argv (cmd_parts : list string)
  | PythonScript (code : string).

(** One call of [subprocess.run] / [asyncio.create_subprocess_exec]. *)
Record Call : Type := mkCall {
  args : Args;
  shell : bool;
  timeout : Z;
  cwd : string
}.

(** What the call does: the child exits, the timeout expires, or
    another exception is raised (its text is [str(e)]). *)
Inductive Outcome : Type :=
  | Completed (returncode : Z) (stdout stderr : string)
  | TimeoutExpired
  | Raised (e : string).

End Subprocess.

(** Splitting at a separator and the lines of a text. *)
Module PyLines.
Import PyStr.

(** The newline and the double quote, as one-character strings. *)
Definition nl : string := String (ascii_of_nat 10) EmptyString.
Definition dq : string := String (ascii_of_nat 34) EmptyString.

(** [s.split(sep)] for a non-empty [sep]; [skip] counts the characters
    of a separator that was just matched and is still being passed.
    The result is the piece under construction and the pieces after it. *)
Fixpoint split_on_aux (sep : string) (skip : nat) (s : string)
  : string * list string :=
  match s with
  | EmptyString => (EmptyString, [])
  | String c s' =>
      match skip with
      | S k => split_on_aux sep k s'
      | O =>
          if startswith sep s then
            let '(cur, rest) := split_on_aux sep (String.length sep - 1) s' in
            (EmptyString, cur :: rest)
          else
            let '(cur, rest) := split_on_aux sep 0 s' in
            (String c cur, rest)
      end
  end.

Definition split_on (sep s : string) : list string :=
  let '(cur, rest) := split_on_aux sep 0 s in cur :: rest.

(** [l[i]] where the source indexes a list that is long enough. *)
Definition item (i : nat) (l : list string) : string :=
  nth i l EmptyString.

End PyLines.

(** ** [backend/python_executor.py] *)
Module PythonExecutor.
Import PyStr PyLines Subprocess.

(** The optional context handed to the code generator. *)
Record Context : Type := mkContext {
  intent : Models.CommandType;
  parameters : gmap string string
}.

(** A call of the content generator: it answers or raises. *)
Inductive Reply : Type :=
  | Answer (response : string)
  | Failure (e : string).

(** The dictionary returned by [execute_with_python]. *)
Record PyResult : Type := mkPyResult {
  py_success : bool;
  py_message : string;
  py_python_mode : bool;
  py_code : string;
  py_output : string;
  py_error : option string
}.

(** [__init__]: the two limits. *)
Definition execution_timeout : Z := 5.
Definition max_output_size : Z := 10000.

Definition python_indicators_en : list string :=
  [ "calculate"; "compute"; "average"; "sum"; "count"; "analyze";
    "parse"; "extract"; "process"; "convert"; "transform";
    "compare"; "find all"; "filter"; "sort by"; "statistics";
    "json"; "xml"; "csv"; "data"; "numbers from"; "pattern";
    "regex"; "replace all"; "manipulate"; "generate random";
    "probability"; "factorial"; "fibonacci"; "prime"; "measure";
    "size"; "how many"; "total"; "list all"; "find"; "search" ].

Definition python_indicators_az : list string :=
  [ "hesabla"; "ölç"; "say"; "cəm"; "ortalama"; "təhlil";
    "tap"; "axtar"; "süz"; "çevir"; "müqayisə"; "statistika";
    "ölçü"; "neçə"; "cəmi"; "siyahı"; "hamısı" ].

(** [can_handle_with_python]. *)
Definition can_handle_with_python (user_request : string)
    (failed_command_type : option string) : bool :=
  let request_lower := lower user_request in
  let all_indicators := python_indicators_en ++ python_indicators_az in
  let has_python_indicator :=
    existsb (fun indicator => contains indicator request_lower)
            all_indicators in
  if bool_decide (failed_command_type = Some "execute_command")
     || bool_decide (failed_command_type = Some "unknown")
  then true
  else if has_python_indicator then true
  else true.

(** [_extract_code_from_response]. *)
Definition fence_python : string := "```python".
Definition fence : string := "```".

Definition explanation_words : list string :=
  [ "explanation"; "note:"; "this will"; "this code" ].

Definition is_explanation (line : string) : bool :=
  startswith "#" (strip line)
  && existsb (fun word => contains word (lower line)) explanation_words.

Definition _extract_code_from_response (response : string) : string :=
  let code := strip response in
  let code :=
    if contains fence_python code then
      item 0 (split_on fence (item 1 (split_on fence_python code)))
    else if contains fence code then
      item 0 (split_on fence (item 1 (split_on fence code)))
    else code in
  let lines := split_on nl code in
  let clean_lines := filter (fun line => is_explanation line = false) lines in
  strip (join nl clean_lines).

(** [_generate_fallback_code]. *)
Definition fallback_average : string :=
  nl +:+ "import sys" +:+ nl +:+ "try:" +:+ nl +:+
  "    # Example: calculate average" +:+ nl +:+
  "    numbers = [1, 2, 3, 4, 5]" +:+ nl +:+
  "    avg = sum(numbers) / len(numbers)" +:+ nl +:+
  "    print(f" +:+ dq +:+ "Average: {avg:.2f}" +:+ dq +:+ ")" +:+ nl +:+
  "except Exception as e:" +:+ nl +:+
  "    print(f" +:+ dq +:+ "Error: {e}" +:+ dq +:+ ")" +:+ nl.

Definition fallback_list_files : string :=
  nl +:+ "from pathlib import Path" +:+ nl +:+ "try:" +:+ nl +:+
  "    files = list(Path.home().iterdir())" +:+ nl +:+
  "    print(f" +:+ dq +:+ "Found {len(files)} items" +:+ dq +:+ ")" +:+ nl +:+
  "    for f in files[:10]:" +:+ nl +:+
  "        print(f" +:+ dq +:+ "  {f.name}" +:+ dq +:+ ")" +:+ nl +:+
  "except Exception as e:" +:+ nl +:+
  "    print(f" +:+ dq +:+ "Error: {e}" +:+ dq +:+ ")" +:+ nl.

Definition fallback_default : string :=
  nl +:+ "print(" +:+ dq +:+
  "Task completed. Python execution was requested but specific implementation is not available."
  +:+ dq +:+ ")" +:+ nl.

Definition _generate_fallback_code (user_request : string) : string :=
  let request_lower := lower user_request in
  if contains "average" request_lower || contains "mean" request_lower
  then fallback_average
  else if contains "list" request_lower && contains "file" request_lower
  then fallback_list_files
  else fallback_default.

(** [is_safe_code]: the patterns with their reasons, and the scan.  The
    [open(] entry only logs a warning and the scan goes on. *)
Definition dangerous_patterns : list (string * string) :=
  [ ("import subprocess", "Subprocess execution not allowed");
    ("import os.system", "System command execution not allowed");
    ("exec(", "Dynamic code execution not allowed");
    ("eval(", "Dynamic evaluation not allowed");
    ("__import__", "Dynamic imports not allowed");
    ("open(", "File opening detected - ensure safe paths") ].

Fixpoint scan (patterns : list (string * string)) (code_lower : string)
  : bool * string :=
  match patterns with
  | [] => (true, "Code appears safe")
  | (pattern, reason) :: rest =>
      if contains (lower pattern) code_lower then
        if contains "open(" pattern then scan rest code_lower
        else (false, reason)
      else scan rest code_lower
  end.

Definition is_safe_code (code : string) : bool * string :=
  let code_lower := lower code in
  scan dangerous_patterns code_lower.

(** [_interpret_output]. *)
Definition _interpret_output (output original_request : string) : string :=
  if Z.of_nat (length (split_on nl (strip output))) <=? 10 then
    "**Result:**" +:+ nl +:+ nl +:+ strip output
  else
    let lines := split_on nl (strip output) in
    "**Result:** (showing " +:+ of_Z (Z.of_nat (length lines))
      +:+ " lines of output)" +:+ nl +:+ nl +:+ strip output.

Section Executor.

(** [self.ollama_service] ([None] when absent): the generator answers a
    request and its context, or raises. *)
Variable ollama_service : option (string -> option Context -> Reply).

(** The child process: what running a call does. *)
Variable run : Call -> Outcome.

(** [str(Path.home())]. *)
Variable home : string.

(** [generate_python_code]: the prompt is built from the request and
    the context, so the service is applied to these two. *)
Definition generate_python_code (user_request : string)
    (context : option Context) : string :=
  match ollama_service with
  | Some generate_content =>
      match generate_content user_request context with
      | Answer response =>
          let code := _extract_code_from_response response in
          if truthy (strip code) then code
          else _generate_fallback_code user_request
      | Failure _ => _generate_fallback_code user_request
      end
  | None => _generate_fallback_code user_request
  end.

(** The child process started by [execute_python_code]: [python3] on a
    temporary file that holds [code]. *)
Definition python_call (code working_dir : string) : Call :=
  mkCall (PythonScript code) false execution_timeout working_dir.

(** [execute_python_code]: the calls made, and (success, stdout, stderr). *)
Definition execute_python_code (code : string) (working_dir : option string)
  : list Call * (bool * string * string) :=
  let working_dir :=
    match working_dir with
    | Some d => if truthy d then d else home
    | None => home
    end in
  let call := python_call code working_dir in
  match run call with
  | Completed returncode stdout stderr =>
      let stdout_str := take (Z.to_nat max_output_size) stdout in
      let stderr_str := take (Z.to_nat max_output_size) stderr in
      ([call], (returncode =? 0, stdout_str, stderr_str))
  | TimeoutExpired =>
      ([call], (false, EmptyString,
                "Execution timed out after " +:+ of_Z execution_timeout
                  +:+ " seconds"))
  | Raised e => ([call], (false, EmptyString, e))
  end.

(** [execute_with_python]. *)
Definition execute_with_python (user_request : string)
    (context : option Context) : list Call * PyResult :=
  let code := generate_python_code user_request context in
  if negb (truthy code) || (len (strip code) <? 10) then
    ([], mkPyResult false "Failed to generate Python code" true code
           EmptyString (Some "Code generation failed"))
  else
    let '(calls, (success, stdout, stderr)) :=
      execute_python_code code None in
    let message :=
      if success && truthy stdout then _interpret_output stdout user_request
      else if truthy stderr then
        "Python execution encountered an error:" +:+ nl +:+ stderr
      else "Python code executed but produced no output." in
    (calls, mkPyResult success message true code stdout
              (if truthy stderr then Some stderr else None)).

End Executor.

End PythonExecutor.

(** ** [backend/command_executor.py] *)
Module CommandExecutor.
Import PyStr PyLines Subprocess Models.

(** A [pathlib.Path] that [resolve()] returned: its [parts], the root
    ["/"] first. *)
Definition Path : Type := list string.

(** [str(p)]. *)
Definition path_str (p : Path) : string :=
  match p with
  | [] => "."
  | root :: rest => root +:+ join "/" rest
  end.

(** [p.name]: the last component, empty for the root alone. *)
Definition path_name (p : Path) : string :=
  match p with
  | [] | [_] => EmptyString
  | _ :: rest => List.last rest EmptyString
  end.

(** [p.relative_to(base)] succeeds exactly when the parts of [base]
    begin the parts of [p]: [p] is [base] or lies below it. *)
Definition is_relative_to (p base : Path) : bool :=
  bool_decide (base `prefix_of` p).

(** The exceptions raised by the functions modelled here. *)
Inductive Exn : Type :=
  | PermissionError (msg : string).

Definition exn_str (e : Exn) : string :=
  match e with PermissionError msg => msg end.

(** The outcome of a function that returns or raises. *)
Inductive Raises (A : Type) : Type :=
  | Return (a : A)
  | Raise (e : Exn).
Arguments Return {A} a.
Arguments Raise {A} e.

(** The objects of the file system that the handlers tell apart:
    [is_file()], [is_dir()], or neither (a device, a socket, a pipe). *)
Inductive Node : Type :=
  | RegularFile
  | Directory
  | Special.

(** The file system: the resolved paths that exist. *)
Abbreviation FileSystem := (gmap (list string) Node).

(** [p.unlink()]. *)
Definition unlink (p : Path) (fs : FileSystem) : FileSystem :=
  delete p fs.

(** [shutil.rmtree(p)]: [p] goes with everything below it. *)
Definition rmtree (p : Path) (fs : FileSystem) : FileSystem :=
  filter (fun entry => ¬ (p `prefix_of` entry.1)) fs.

(** [CommandIntent]. *)
Record CommandIntent : Type := mkCommandIntent {
  intent_command_type : CommandType;
  intent_parameters : gmap string string;
  original_message : string;
  reasoning : option string
}.

Definition common_folders : list (string * string) :=
  [ ("downloads", "Downloads");
    ("documents", "Documents");
    ("pictures", "Pictures");
    ("desktop", "Desktop");
    ("music", "Music");
    ("videos", "Videos");
    ("home", "") ].

(** [d.get(k)] on the literal dictionary above. *)
Fixpoint folder_of (k : string) (d : list (string * string))
  : option string :=
  match d with
  | [] => None
  | (k', v) :: rest => if String.eqb k k' then Some v else folder_of k rest
  end.

Definition backslash : string := String (ascii_of_nat 92) EmptyString.

Definition safe_commands : list string :=
  [ "ls"; "pwd"; "cd"; "mkdir"; "rmdir"; "touch"; "cat"; "head"; "tail"; "less"; "more";
    "wc"; "sort"; "uniq"; "grep"; "find"; "locate"; "which"; "whereis"; "file"; "stat";
    "du"; "df"; "mount"; "umount"; "chmod"; "chown"; "chgrp"; "ln"; "readlink";
    "awk"; "sed"; "cut"; "paste"; "join"; "diff"; "cmp"; "comm"; "tr"; "expand"; "unexpand";
    "fold"; "fmt"; "pr"; "column"; "nl"; "tac"; "rev"; "base64"; "hexdump"; "od";
    "uname"; "hostname"; "whoami"; "id"; "groups"; "who"; "w"; "users"; "last"; "lastlog";
    "uptime"; "date"; "cal"; "time"; "env"; "printenv"; "set"; "ps"; "top"; "htop";
    "free"; "vmstat"; "iostat"; "sar"; "netstat"; "ss"; "lsof"; "fuser"; "lscpu"; "lsmem";
    "ping"; "traceroute"; "nslookup"; "dig"; "host"; "curl"; "wget"; "nc"; "telnet";
    "ssh"; "scp"; "rsync"; "ifconfig"; "ip"; "route"; "arp"; "iptables"; "ufw";
    "kill"; "killall"; "pkill"; "pgrep"; "jobs"; "bg"; "fg"; "nohup"; "screen"; "tmux";
    "at"; "crontab"; "systemctl"; "service"; "initctl";
    "tar"; "gzip"; "gunzip"; "bzip2"; "bunzip2"; "xz"; "unxz"; "zip"; "unzip"; "7z";
    "rar"; "unrar"; "cpio"; "ar"; "zipinfo";
    "apt"; "apt-get"; "apt-cache"; "dpkg"; "yum"; "dnf"; "rpm"; "pacman"; "brew";
    "pip"; "npm"; "yarn"; "gem"; "cargo"; "go"; "maven"; "gradle";
    "git"; "svn"; "hg"; "make"; "cmake"; "gcc"; "g++"; "clang"; "python"; "python3";
    "node"; "npm"; "yarn"; "java"; "javac"; "javadoc"; "mvn"; "gradle"; "docker";
    "docker-compose"; "kubectl"; "helm"; "terraform"; "ansible";
    "tail"; "journalctl"; "dmesg"; "syslog"; "logger"; "watch"; "strace"; "ltrace";
    "tcpdump"; "wireshark"; "tcpflow"; "ngrep"; "iftop"; "iotop"; "nethogs";
    "man"; "info"; "help"; "type"; "alias"; "history"; "clear"; "reset"; "stty";
    "tty"; "mesg"; "write"; "wall"; "talk"; "finger"; "whois"; "wget"; "curl";
    "lynx"; "links"; "elinks"; "w3m"; "tree"; "exa"; "bat"; "fd"; "ripgrep";
    "bc"; "dc"; "factor"; "primes"; "seq"; "shuf"; "random"; "expr"; "let";
    "yes"; "no"; "true"; "false"; "echo"; "printf"; "sleep"; "wait"; "timeout";
    "nice"; "renice"; "ionice"; "taskset"; "chrt"; "flock"; "fuser"; "lsof" ].

Definition dangerous_patterns : list string :=
  [ "rm "; "rm -"; "del "; "format "; "mkfs"; "dd if="; "dd of="; "shutdown"; "reboot"; "halt"; "poweroff";
    "init 0"; "init 6"; "kill -9"; "killall -9"; "pkill -9";
    "chmod 777"; "chmod +s"; "chown root"; "passwd"; "useradd"; "userdel"; "groupadd"; "groupdel";
    "usermod"; "groupmod"; "visudo"; "sudo "; "su "; "sudoers";
    "nc -l"; "netcat -l"; "python -m http.server"; "python3 -m http.server"; "php -S";
    "ruby -run"; "perl -MIO::Socket"; "telnetd"; "sshd"; "ftp"; "tftp";
    "mount -o"; "umount -f"; "fdisk"; "parted"; "mkfs"; "fsck"; "badblocks";
    "dd if=/dev/"; "dd of=/dev/"; "cat > /dev/"; "echo > /dev/";
    "kill -STOP"; "kill -CONT"; "renice -20"; "nice -20"; "ionice -c 1";
    "taskset -c 0"; "chrt -f 99"; "strace -e trace"; "ltrace -e";
    "apt remove"; "apt purge"; "yum remove"; "dnf remove"; "pacman -R"; "brew uninstall";
    "pip uninstall"; "npm uninstall"; "gem uninstall"; "cargo uninstall";
    "make install"; "make uninstall"; "cmake --install"; "docker run --privileged";
    "docker exec --privileged"; "kubectl delete"; "helm uninstall"; "terraform destroy";
    "; rm"; "; del"; "; format"; "; shutdown"; "; reboot"; "&& rm"; "&& del";
    "|| rm"; "|| del"; "| rm"; "| del"; "> /dev/"; ">> /dev/"; "2> /dev/";
    "bash -c"; "sh -c"; "zsh -c"; "fish -c"; "python -c"; "perl -e"; "ruby -e";
    "node -e"; "php -r"; "lua -e"; "awk '{"; "sed '"; "eval"; "exec";
    "export PATH="; "export LD_LIBRARY_PATH="; "export PYTHONPATH="; "alias rm=";
    "unalias"; "hash -r"; "builtin"; "command"; "type -a"; "declare -f" ].

(** The texts of the results of [_execute_command]. *)
Definition not_allowed_message : string :=
  "Command not allowed. Safe commands: " +:+ join ", " safe_commands.

Definition blocked_message (pattern : string) : string :=
  "🚫 Command blocked for security: Contains dangerous pattern '"
    +:+ pattern +:+ "'".

Definition truncation_marker : string :=
  nl +:+ nl +:+ "... (output truncated, showing first 2000 characters)".

(** [params.get("command", "")]. *)
Definition command_of (params : gmap string string) : string :=
  default EmptyString (params !! "command").

Section Executor.

(** [os.path.expanduser]. *)
Variable expanduser : string -> string.

(** [Path(s).resolve()]: the canonical absolute path of [s] in the file
    system at hand, symbolic links followed. *)
Variable resolve : string -> Path.

(** [self.allowed_base_dir]. *)
Variable allowed_base_dir : string.

(** [self.ollama_service], handed to the Python executor. *)
Variable ollama_service :
  option (string -> option PythonExecutor.Context -> PythonExecutor.Reply).

(** The child processes. *)
Variable run : Call -> Outcome.

(** [_normalize_path]. *)
Definition _normalize_path (path : string) : Raises Path :=
  let path_lower := strip (lower path) in
  let path :=
    match folder_of path_lower common_folders with
    | Some folder_name =>
        if negb (contains "/" path) && negb (contains backslash path) then
          if truthy folder_name then "~/" +:+ folder_name else "~"
        else path
    | None => path
    end in
  let expanded := expanduser path in
  let normalized := resolve expanded in
  let base := resolve allowed_base_dir in
  if is_relative_to normalized base then Return normalized
  else Raise (PermissionError
                ("Access denied: " +:+ path
                   +:+ " is outside allowed directories")).

(** [_delete_file]: the file system afterwards and the value returned;
    [None] is Python's [None], returned when the function ends without
    a [return]. *)
Definition _delete_file (params : gmap string string) (fs : FileSystem)
  : FileSystem * option CommandResult :=
  match params !! "path" with
  | None => (fs, Some (result false "No file path specified" DELETE_FILE))
  | Some path =>
      if negb (truthy path) then
        (fs, Some (result false "No file path specified" DELETE_FILE))
      else
        match _normalize_path path with
        | Raise e =>
            (fs, Some (result false ("Failed to delete: " +:+ exn_str e)
                         DELETE_FILE))
        | Return normalized_path =>
            match fs !! normalized_path with
            | None =>
                (fs, Some (result false ("File not found: " +:+ path)
                             DELETE_FILE))
            | Some RegularFile =>
                (unlink normalized_path fs,
                 Some (result_with true
                         ("Deleted file: " +:+ path_name normalized_path)
                         (PathData (path_str normalized_path)) DELETE_FILE))
            | Some Directory =>
                (rmtree normalized_path fs,
                 Some (result_with true
                         ("Deleted directory: " +:+ path_name normalized_path)
                         (PathData (path_str normalized_path)) DELETE_FILE))
            | Some Special => (fs, None)
            end
        end
  end.

(** The two ways [_execute_command] starts a child. *)
Definition shell_call (command : string) : Call :=
  mkCall (CommandLine command) true 15 (expanduser "~").

Definition argv_call (cmd_parts : list string) : Call :=
  mkCall (Argv cmd_parts) false 10 (expanduser "~").

(** [_execute_command]: the child processes started and the result. *)
Definition _execute_command (params : gmap string string)
  : list Call * CommandResult :=
  let command := command_of params in
  let cmd_parts := split command in
  match cmd_parts with
  | [] => ([], result false "Empty command" EXECUTE_COMMAND)
  | base_command :: _ =>
      if negb (mem base_command safe_commands) then
        ([], result false not_allowed_message EXECUTE_COMMAND)
      else
        let command_lower := lower command in
        match List.find (fun pattern => contains pattern command_lower)
                        dangerous_patterns with
        | Some pattern =>
            ([], result false (blocked_message pattern) EXECUTE_COMMAND)
        | None =>
            let use_shell :=
              contains "|" command || contains ">" command
              || contains "&&" command || contains "||" command in
            let call :=
              if use_shell then shell_call command
              else argv_call cmd_parts in
            match run call with
            | Completed returncode out err =>
                let stdout := strip out in
                let stderr := strip err in
                let message :=
                  if returncode =? 0 then
                    if truthy stdout then
                      if 2000 <? len stdout then
                        let truncated_output :=
                          take 2000 stdout +:+ truncation_marker in
                        "✅ " +:+ command +:+ nl +:+ nl +:+ truncated_output
                      else "✅ " +:+ command +:+ nl +:+ nl +:+ stdout
                    else "✅ " +:+ command +:+ " (executed successfully)"
                  else
                    let error_msg :=
                      "❌ Command failed (exit code " +:+ of_Z returncode
                        +:+ "): " +:+ command in
                    let error_msg :=
                      if truthy stderr then
                        error_msg +:+ nl +:+ nl +:+ "Error details:" +:+ nl
                          +:+ stderr
                      else error_msg in
                    let error_msg :=
                      if truthy stdout then
                        error_msg +:+ nl +:+ nl +:+ "Output:" +:+ nl +:+ stdout
                      else error_msg in
                    error_msg in
                ([call],
                 result_with (returncode =? 0) message
                   (ExecData stdout stderr returncode command "N/A")
                   EXECUTE_COMMAND)
            | TimeoutExpired =>
                ([call],
                 result false ("⏰ Command timed out: " +:+ command)
                   EXECUTE_COMMAND)
            | Raised e =>
                ([call],
                 result false ("❌ Command failed: " +:+ e) EXECUTE_COMMAND)
            end
        end
  end.

(** [_try_python_fallback]. *)
Definition _try_python_fallback (intent : CommandIntent)
    (original_error : option string) : list Call * CommandResult :=
  let can_handle :=
    PythonExecutor.can_handle_with_python
      (original_message intent)
      (Some (CommandType_str (intent_command_type intent))) in
  if negb can_handle then
    ([], mkCommandResult false
           (match original_error with
            | Some e => if truthy e then e else "Unable to execute request"
            | None => "Unable to execute request"
            end)
           None (intent_command_type intent) false None)
  else
    let '(calls, r) :=
      PythonExecutor.execute_with_python ollama_service run (expanduser "~")
        (original_message intent)
        (Some (PythonExecutor.mkContext (intent_command_type intent)
                 (intent_parameters intent))) in
    (calls,
     mkCommandResult (PythonExecutor.py_success r)
       (PythonExecutor.py_message r)
       (Some (PythonData (PythonExecutor.py_output r)
                (PythonExecutor.py_error r) (PythonExecutor.py_code r)))
       (intent_command_type intent) true
       (Some (PythonExecutor.py_code r))).

End Executor.

End CommandExecutor.

(** ** [collections.OrderedDict] with string keys *)
Module OrderedDict.

Section Ops.
Context {X : Type}.

(** The entries from the first (oldest) to the last (newest). *)
Definition t : Type := list (string * X).

Definition keys (d : t) : list string := map fst d.

(** [d.get(key)]. *)
Fixpoint get (key : string) (d : t) : option X :=
  match d with
  | [] => None
  | (k, x) :: rest => if String.eqb k key then Some x else get key rest
  end.

(** [d[key] = x]: a present key keeps its place, a new key goes last. *)
Fixpoint setitem (key : string) (x : X) (d : t) : t :=
  match d with
  | [] => [(key, x)]
  | (k, y) :: rest =>
      if String.eqb k key then (k, x) :: rest
      else (k, y) :: setitem key x rest
  end.

(** [del d[key]] for a present key. *)
Fixpoint delitem (key : string) (d : t) : t :=
  match d with
  | [] => []
  | (k, y) :: rest =>
      if String.eqb k key then rest else (k, y) :: delitem key rest
  end.

(** [d.move_to_end(key)] for a present key. *)
Definition move_to_end (key : string) (d : t) : t :=
  match get key d with
  | Some x => delitem key d ++ [(key, x)]
  | None => d
  end.

(** [d.popitem(last=False)] on a non-empty dictionary: what is left. *)
Definition popitem_first (d : t) : t := tl d.

End Ops.
Arguments t X : clear implicits.

End OrderedDict.

(** ** [backend/main.py] *)
Module Main.

Local Open Scope Q_scope.

(** [x < y] on clock readings. *)
Definition Qltb (x y : Q) : bool := negb (Qle_bool y x).

Definition RATE_LIMIT_WINDOW_SEC : Q := 30.
Definition RATE_LIMIT_MAX_REQUESTS : nat := 10.

(** The loop [while dq and dq[0] < window_start: dq.popleft()]. *)
Fixpoint drop_old (window_start : Q) (dq : list Q) : list Q :=
  match dq with
  | [] => []
  | t0 :: rest =>
      if Qltb t0 window_start then drop_old window_start rest else dq
  end.

(** [_allow_request], with [now] the reading of [time.time()] and
    [buckets] the table [_rate_limit_buckets]: the table afterwards and
    the answer. *)
Definition _allow_request (now : Q) (client_id : string)
    (buckets : gmap string (list Q)) : gmap string (list Q) * bool :=
  let window_start := now - RATE_LIMIT_WINDOW_SEC in
  let dq := default [] (buckets !! client_id) in
  let dq := drop_old window_start dq in
  if (RATE_LIMIT_MAX_REQUESTS <=? length dq)%nat then
    (<[client_id := dq]> buckets, false)
  else
    (<[client_id := dq ++ [now]]> buckets, true).

(** A run of requests, each with its clock reading and client: the
    table afterwards and the answers in order. *)
Fixpoint serve (requests : list (Q * string))
    (buckets : gmap string (list Q)) : gmap string (list Q) * list bool :=
  match requests with
  | [] => (buckets, [])
  | (now, client_id) :: rest =>
      let '(buckets, ok) := _allow_request now client_id buckets in
      let '(buckets, oks) := serve rest buckets in
      (buckets, ok :: oks)
  end.

(** The requests of one client at the given clock readings. *)
Definition from_client (client_id : string) (times : list Q)
  : list (Q * string) :=
  map (fun t => (t, client_id)) times.

(** The answers to [n] requests when [k] places are left: the places
    are granted in order, the rest is refused. *)
Definition answers (k n : nat) : list bool :=
  replicate (Nat.min k n) true ++ replicate (n - k) false.

(** Every bucket of the table holds at most the maximum. *)
Definition bounded (buckets : gmap string (list Q)) : Prop :=
  forall client_id dq,
    buckets !! client_id = Some dq ->
    (length dq <= RATE_LIMIT_MAX_REQUESTS)%nat.

Section Cache.
Context {V : Type}.

(** [LRUCacheTTL]: the two settings and the store of (time, value). *)
Record LRUCacheTTL : Type := mkLRUCacheTTL {
  max_size : nat;
  ttl : Z;
  store : OrderedDict.t (Q * V)
}.

(** [LRUCacheTTL(max_size, ttl_sec)]. *)
Definition new (max_size : nat) (ttl_sec : Z) : LRUCacheTTL :=
  mkLRUCacheTTL max_size ttl_sec [].

Definition with_store (c : LRUCacheTTL) (s : OrderedDict.t (Q * V))
  : LRUCacheTTL :=
  mkLRUCacheTTL (max_size c) (ttl c) s.

(** [get], with [now] the reading of [time.time()]. *)
Definition get (now : Q) (key : string) (c : LRUCacheTTL)
  : LRUCacheTTL * option V :=
  match OrderedDict.get key (store c) with
  | None => (c, None)
  | Some (ts, value) =>
      if Qltb (inject_Z (ttl c)) (now - ts) then
        (with_store c (OrderedDict.delitem key (store c)), None)
      else
        (with_store c (OrderedDict.move_to_end key (store c)), Some value)
  end.

(** [set], with [now] the reading of [time.time()]. *)
Definition set (now : Q) (key : string) (value : V) (c : LRUCacheTTL)
  : LRUCacheTTL :=
  let s := OrderedDict.setitem key (now, value) (store c) in
  let s := OrderedDict.move_to_end key s in
  if (max_size c <? length s)%nat then
    with_store c (OrderedDict.popitem_first s)
  else with_store c s.

(** [intent_cache = LRUCacheTTL(max_size=256, ttl_sec=180)]. *)
Definition intent_cache : LRUCacheTTL := new 256 180.

(** The caches that the program can hold in [intent_cache]. *)
Inductive reached : LRUCacheTTL -> Prop :=
  | reached_new : reached intent_cache
  | reached_get now key c : reached c -> reached (get now key c).1
  | reached_set now key value c : reached c -> reached (set now key value c).

(** What every cache built by [new], [get] and [set] satisfies: the
    keys are distinct and the capacity is respected. *)
Definition wf (c : LRUCacheTTL) : Prop :=
  NoDup (OrderedDict.keys (store c)) /\ (length (store c) <= max_size c)%nat.

End Cache.
Arguments LRUCacheTTL V : clear implicits.

End Main.

(** ** A file system without symbolic links

    An instance of the two path primitives that [_normalize_path] takes
    from the operating system, for a machine with one user and no
    symbolic links: resolution is then a walk over the components. *)
Module LexicalPaths.
Import PyStr PyLines.

(** [os.path.expanduser] with home directory [home]: a leading ["~"]
    alone or before ["/"] is replaced. *)
Definition expanduser (home path : string) : string :=
  match path with
  | String c rest =>
      if Ascii.eqb c "~" && (negb (truthy rest) || startswith "/" rest)
      then home +:+ rest
      else path
  | EmptyString => path
  end.

(** The walk: [stack] holds the components so far, innermost first. *)
Fixpoint walk (stack components : list string) : list string :=
  match components with
  | [] => stack
  | c :: cs =>
      if String.eqb c "" || String.eqb c "." then walk stack cs
      else if String.eqb c ".." then walk (tl stack) cs
      else walk (c :: stack) cs
  end.

(** [Path(s).resolve()] with current directory [cwd] (its components
    below the root). *)
Definition resolve (cwd : list string) (s : string) : list string :=
  let start := if startswith "/" s then [] else rev cwd in
  "/" :: rev (walk start (split_on "/" s)).

End LexicalPaths.

(** ** Concrete inputs used in the examples *)
Module Scenarios.
Import PyStr PyLines Subprocess.

(** A child that exits with code 0 and prints nothing. *)
Definition quiet (call : Call) : Outcome :=
  Completed 0 EmptyString EmptyString.



(** The parameters of an [execute_command] intent. *)
Definition command_params (command : string) : gmap string string :=
  {[ "command" := command ]}.

(** The parameters of a file intent. *)
Definition path_params (path : string) : gmap string string :=
  {[ "path" := path ]}.

(** One user, whose home directory is the allowed root and the current
    directory. *)
Definition home : string := "/home/lia".
Definition expanduser : string -> string := LexicalPaths.expanduser home.
Definition resolve : string -> list string :=
  LexicalPaths.resolve ["home"; "lia"].

(** A generated script that spawns a child process. *)
Definition unsafe_script : string :=
  "import subprocess" +:+ nl +:+ "subprocess.run(['ls'])".

(** A generator that answers every request with [unsafe_script]. *)
Definition unsafe_service
  : option (string -> option PythonExecutor.Context -> PythonExecutor.Reply) :=
  Some (fun _ _ => PythonExecutor.Answer unsafe_script).

(** A small file tree below the home directory. *)
Definition tree : gmap (list string) CommandExecutor.Node :=
  list_to_map
    [ (["/"], CommandExecutor.Directory);
      (["/"; "home"], CommandExecutor.Directory);
      (["/"; "home"; "lia"], CommandExecutor.Directory);
      (["/"; "home"; "lia"; "notes.txt"], CommandExecutor.RegularFile);
      (["/"; "home"; "lia"; "Downloads"], CommandExecutor.Directory);
      (["/"; "home"; "lia"; "Downloads"; "a.zip"], CommandExecutor.RegularFile);
      (["/"; "home"; "lia"; "Downloads"; "old"], CommandExecutor.Directory);
      (["/"; "home"; "lia"; "Downloads"; "old"; "b.zip"],
       CommandExecutor.RegularFile);
      (["/"; "home"; "lia"; "Downloadsx"], CommandExecutor.RegularFile) ].

(** A client, a burst of twelve requests within one window, and the
    table after the burst. *)
Definition client : string := "chat:127.0.0.1".
Definition burst : list Q :=
  [1; 2; 3; 4; 5; 6; 7; 8; 9; 10; 11]%Q.
Definition burst_table : gmap string (list Q) :=
  (Main.serve (Main.from_client client (0%Q :: burst)) ∅).1.

(** A cache of capacity two that is full. *)
Definition small_cache : Main.LRUCacheTTL nat :=
  Main.set 1%Q "general:hello" 8%nat
    (Main.set 0%Q "local:list files" 7%nat (Main.new 2 180)).

End Scenarios.

(** ** [backend/command_executor.py]: the handlers that open, rename
       and create *)
Module FileHandlers.
Import PyStr PyLines Models CommandExecutor.

(** A value in the [data] dictionary of a result. *)
Inductive Field : Type :=
  | FStr (s : string)
  | FInt (n : Z).

(** [CommandResult] with its [data] as the dictionary it is, for the
    handlers whose payloads have other keys than those of [Models.Data]:
    the entries in the order of the dictionary display. *)
Record Result : Type := mkResult {
  r_success : bool;
  r_message : string;
  r_data : option (list (string * Field));
  r_command_type : CommandType
}.

(** [CommandResult(success=.., message=.., command_type=..)]. *)
Definition failed (msg : string) (t : CommandType) : Result :=
  mkResult false msg None t.

(** What a handler asks of the operating system or of the generator:
    [subprocess.Popen(argv)], [os.startfile(path)],
    [source.rename(dest)], [p.mkdir(exist_ok=True)],
    [p.write_text(content)], [generate_content(prompt)],
    [p.read_text()], [shutil.copy2], [shutil.copytree] and
    [shutil.move] (on the texts of the paths). *)
Inductive Effect : Type :=
  | Popen (argv : list string)
  | StartFile (path : string)
  | Rename (source dest : Path)
  | Mkdir (p : Path)
  | WriteText (p : Path) (content : string)
  | Generate (prompt : string) (max_tokens : Z)
  | ReadText (p : Path)
  | Copy2 (source dest : Path)
  | CopyTree (source dest : Path)
  | Move (source dest : string).

(** ** Pure paths *)

(** The root of a POSIX path text: two leading slashes exactly are a
    root of their own. *)
Definition root_of (s : string) : string :=
  if startswith "//" s && negb (startswith "///" s) then "//"
  else if startswith "/" s then "/"
  else EmptyString.

(** The components of a path text: empty ones and single dots are
    dropped, double dots are kept. *)
Definition parse_parts (s : string) : list string :=
  List.filter (fun x => truthy x && negb (String.eqb x "."))
              (split_on "/" s).

(** [Path(s)]: the parts, the root first when there is one. *)
Definition path_of (s : string) : Path :=
  if truthy (root_of s) then root_of s :: parse_parts s
  else parse_parts s.

(** [p / s]: a rooted [s] replaces [p]. *)
Definition joinpath (p : Path) (s : string) : Path :=
  if truthy (root_of s) then path_of s else p ++ parse_parts s.

(** [p.parent] of an absolute path. *)
Definition parent (p : Path) : Path :=
  match p with
  | [] | [_] => p
  | _ => removelast p
  end.

(** The keywords that make [_create_file] ask the generator. *)
Definition generation_keywords : list string :=
  [ "write"; "generate"; "pages"; "about"; "search"; "information";
    "content" ].

(** [s.replace(old, new)] for a non-empty [old]. *)
Definition replace (old new s : string) : string :=
  join new (split_on old s).

(** The prompt that [_create_file] sends for a content request. *)
Definition creation_prompt (content : string) : string :=
  if contains "about" (lower content) || contains "search" (lower content)
  then
    let topic :=
      strip (replace "information" EmptyString
               (replace "search" EmptyString
                  (replace "about" EmptyString (lower content)))) in
    "Write comprehensive information about " +:+ topic
      +:+ ". Create detailed content that explains the topic clearly and thoroughly. Format it well with headings and explanations."
  else
    "Write detailed content for a file. The request was: " +:+ content
      +:+ ". Generate appropriate content that would fill approximately 1-2 pages.".

(** The text of a file created without content. *)
Definition default_content (filename : string) : string :=
  "# " +:+ filename +:+ nl +:+ nl
    +:+ "Created by Local Intelligent Agent" +:+ nl.

(** [content[:200] + "..." if len(content) > 200 else content]. *)
Definition content_preview (content : string) : string :=
  if 200 <? len content then take 200 content +:+ "..." else content.

Section Handlers.

Variable expanduser : string -> string.
Variable resolve : string -> Path.
Variable allowed_base_dir : string.

(** [platform.system()]. *)
Variable system : string.

(** What an effect does: it goes through ([inl], with the text that
    the generator answers, empty for the other effects) or raises
    ([inr], with the text of the exception). *)
Variable perform : Effect -> string + string.

(** [p.stat().st_size]. *)
Variable st_size : Path -> Z.

(** [_open_folder]: the effects asked for and the result. *)
Definition _open_folder (params : gmap string string) (fs : FileSystem)
  : list Effect * Result :=
  let path := default "~" (params !! "path") in
  match _normalize_path expanduser resolve allowed_base_dir path with
  | Raise e => ([], failed ("Failed to open folder: " +:+ exn_str e) OPEN_FOLDER)
  | Return normalized_path =>
      match fs !! normalized_path with
      | None => ([], failed ("Folder not found: " +:+ path) OPEN_FOLDER)
      | Some Directory =>
          let opener :=
            if String.eqb system "Linux" then Some "xdg-open"
            else if String.eqb system "Darwin" then Some "open"
            else if String.eqb system "Windows" then Some "explorer"
            else None in
          match opener with
          | None =>
              ([], failed ("Unsupported operating system: " +:+ system)
                     OPEN_FOLDER)
          | Some program =>
              let effect := Popen [program; path_str normalized_path] in
              match perform effect with
              | inr e =>
                  ([effect], failed ("Failed to open folder: " +:+ e)
                               OPEN_FOLDER)
              | inl _ =>
                  ([effect],
                   mkResult true
                     ("Opened folder: " +:+ path_str normalized_path)
                     (Some [("path", FStr (path_str normalized_path))])
                     OPEN_FOLDER)
              end
          end
      | Some _ => ([], failed ("Not a directory: " +:+ path) OPEN_FOLDER)
      end
  end.

(** [_open_file]. *)
Definition _open_file (params : gmap string string) (fs : FileSystem)
  : list Effect * Result :=
  match params !! "path" with
  | None => ([], failed "No file path specified" OPEN_FILE)
  | Some path =>
      if negb (truthy path) then
        ([], failed "No file path specified" OPEN_FILE)
      else
        match _normalize_path expanduser resolve allowed_base_dir path with
        | Raise e =>
            ([], failed ("Failed to open file: " +:+ exn_str e) OPEN_FILE)
        | Return normalized_path =>
            match fs !! normalized_path with
            | None => ([], failed ("File not found: " +:+ path) OPEN_FILE)
            | Some RegularFile =>
                let opener :=
                  if String.eqb system "Linux" then
                    Some (Popen ["xdg-open"; path_str normalized_path])
                  else if String.eqb system "Darwin" then
                    Some (Popen ["open"; path_str normalized_path])
                  else if String.eqb system "Windows" then
                    Some (StartFile (path_str normalized_path))
                  else None in
                match opener with
                | None =>
                    ([], failed ("Unsupported operating system: " +:+ system)
                           OPEN_FILE)
                | Some effect =>
                    match perform effect with
                    | inr e =>
                        ([effect], failed ("Failed to open file: " +:+ e)
                                     OPEN_FILE)
                    | inl _ =>
                        ([effect],
                         mkResult true
                           ("Opened file: " +:+ path_name normalized_path)
                           (Some [("path", FStr (path_str normalized_path));
                                  ("name", FStr (path_name normalized_path))])
                           OPEN_FILE)
                    end
                end
            | Some _ => ([], failed ("Not a file: " +:+ path) OPEN_FILE)
            end
        end
  end.

(** [_rename_file]. *)
Definition _rename_file (params : gmap string string) (fs : FileSystem)
  : list Effect * Result :=
  let path := default EmptyString (params !! "path") in
  let new_name := default EmptyString (params !! "new_name") in
  if negb (truthy path) || negb (truthy new_name) then
    ([], failed "Path and new name required" RENAME_FILE)
  else
    match _normalize_path expanduser resolve allowed_base_dir path with
    | Raise e => ([], failed ("Failed to rename: " +:+ exn_str e) RENAME_FILE)
    | Return source_path =>
        match fs !! source_path with
        | None => ([], failed ("File not found: " +:+ path) RENAME_FILE)
        | Some _ =>
            let dest_path := joinpath (parent source_path) new_name in
            let effect := Rename source_path dest_path in
            match perform effect with
            | inr e =>
                ([effect], failed ("Failed to rename: " +:+ e) RENAME_FILE)
            | inl _ =>
                ([effect],
                 mkResult true
                   ("Renamed " +:+ path_name source_path +:+ " to "
                      +:+ new_name)
                   (Some [("old_path", FStr (path_str source_path));
                          ("new_path", FStr (path_str dest_path))])
                   RENAME_FILE)
            end
        end
    end.

(** The last step of [_create_file]: write and report. *)
Definition write_and_report (done : list Effect) (file_path : Path)
    (content_to_write : string) : list Effect * Result :=
  let writing := WriteText file_path content_to_write in
  match perform writing with
  | inr e =>
      (done ++ [writing], failed ("Failed to create file: " +:+ e) CREATE_FILE)
  | inl _ =>
      (done ++ [writing],
       mkResult true ("Created file: " +:+ path_str file_path)
         (Some [("path", FStr (path_str file_path));
                ("size", FInt (st_size file_path));
                ("content_preview", FStr (content_preview content_to_write))])
         CREATE_FILE)
  end.

(** The middle step of [_create_file]: choose what to write. *)
Definition choose_and_write (done : list Effect) (file_path : Path)
    (filename content : string) : list Effect * Result :=
  if truthy content
     && existsb (fun keyword => contains keyword (lower content))
                generation_keywords
  then
    let asking := Generate (creation_prompt content) 3000 in
    match perform asking with
    | inr e =>
        (done ++ [asking], failed ("Failed to create file: " +:+ e) CREATE_FILE)
    | inl generated_content =>
        write_and_report (done ++ [asking]) file_path generated_content
    end
  else if truthy content then write_and_report done file_path content
  else write_and_report done file_path (default_content filename).

(** [_create_file]. *)
Definition _create_file (params : gmap string string)
  : list Effect * Result :=
  let filename := default "newfile.txt" (params !! "filename") in
  let content := default EmptyString (params !! "content") in
  if negb (contains "/" filename) && negb (contains backslash filename) then
    let base_dir := joinpath (path_of (expanduser "~")) "Documents" in
    let making := Mkdir base_dir in
    match perform making with
    | inr e => ([making], failed ("Failed to create file: " +:+ e) CREATE_FILE)
    | inl _ =>
        choose_and_write [making] (joinpath base_dir filename) filename content
    end
  else
    match _normalize_path expanduser resolve allowed_base_dir filename with
    | Raise e =>
        ([], failed ("Failed to create file: " +:+ exn_str e) CREATE_FILE)
    | Return file_path => choose_and_write [] file_path filename content
    end.

(** [_write_file]. *)
Definition _write_file (params : gmap string string)
  : list Effect * Result :=
  let content := default EmptyString (params !! "content") in
  match params !! "path" with
  | None => ([], failed "No file path specified" WRITE_FILE)
  | Some path =>
      if negb (truthy path) then
        ([], failed "No file path specified" WRITE_FILE)
      else
        match _normalize_path expanduser resolve allowed_base_dir path with
        | Raise e =>
            ([], failed ("Failed to write file: " +:+ exn_str e) WRITE_FILE)
        | Return file_path =>
            let writing := WriteText file_path content in
            match perform writing with
            | inr e =>
                ([writing], failed ("Failed to write file: " +:+ e) WRITE_FILE)
            | inl _ =>
                ([writing],
                 mkResult true ("Wrote content to: " +:+ path_str file_path)
                   (Some [("path", FStr (path_str file_path));
                          ("size", FInt (st_size file_path))])
                   WRITE_FILE)
            end
        end
  end.

(** [_read_file]. *)
Definition _read_file (params : gmap string string) (fs : FileSystem)
  : list Effect * Result :=
  match params !! "path" with
  | None => ([], failed "No file path specified" READ_FILE)
  | Some path =>
      if negb (truthy path) then
        ([], failed "No file path specified" READ_FILE)
      else
        match _normalize_path expanduser resolve allowed_base_dir path with
        | Raise e =>
            ([], failed ("Failed to read file: " +:+ exn_str e) READ_FILE)
        | Return file_path =>
            match fs !! file_path with
            | None => ([], failed ("File not found: " +:+ path) READ_FILE)
            | Some _ =>
                let reading := ReadText file_path in
                match perform reading with
                | inr e =>
                    ([reading],
                     failed ("Failed to read file: " +:+ e) READ_FILE)
                | inl content =>
                    ([reading],
                     mkResult true ("Read file: " +:+ path_str file_path)
                       (Some [("path", FStr (path_str file_path));
                              ("content", FStr content)])
                       READ_FILE)
                end
            end
        end
  end.

(** [_copy_file]. *)
Definition _copy_file (params : gmap string string) (fs : FileSystem)
  : list Effect * Result :=
  let source := default EmptyString (params !! "source") in
  let destination := default EmptyString (params !! "destination") in
  if negb (truthy source) || negb (truthy destination) then
    ([], failed "Source and destination paths required" COPY_FILE)
  else
    match _normalize_path expanduser resolve allowed_base_dir source with
    | Raise e => ([], failed ("Failed to copy: " +:+ exn_str e) COPY_FILE)
    | Return source_path =>
        match _normalize_path expanduser resolve allowed_base_dir
                destination with
        | Raise e => ([], failed ("Failed to copy: " +:+ exn_str e) COPY_FILE)
        | Return dest_path =>
            match fs !! source_path with
            | None =>
                ([], failed ("Source not found: " +:+ source) COPY_FILE)
            | Some node =>
                let copying :=
                  match node with
                  | RegularFile => Copy2 source_path dest_path
                  | _ => CopyTree source_path dest_path
                  end in
                match perform copying with
                | inr e =>
                    ([copying], failed ("Failed to copy: " +:+ e) COPY_FILE)
                | inl _ =>
                    ([copying],
                     mkResult true
                       ("Copied " +:+ path_name source_path +:+ " to "
                          +:+ path_str dest_path)
                       (Some [("source", FStr (path_str source_path));
                              ("destination", FStr (path_str dest_path))])
                       COPY_FILE)
                end
            end
        end
    end.

(** [_move_file]. *)
Definition _move_file (params : gmap string string) (fs : FileSystem)
  : list Effect * Result :=
  let source := default EmptyString (params !! "source") in
  let destination := default EmptyString (params !! "destination") in
  if negb (truthy source) || negb (truthy destination) then
    ([], failed "Source and destination paths required" MOVE_FILE)
  else
    match _normalize_path expanduser resolve allowed_base_dir source with
    | Raise e => ([], failed ("Failed to move: " +:+ exn_str e) MOVE_FILE)
    | Return source_path =>
        match _normalize_path expanduser resolve allowed_base_dir
                destination with
        | Raise e => ([], failed ("Failed to move: " +:+ exn_str e) MOVE_FILE)
        | Return dest_path =>
            match fs !! source_path with
            | None =>
                ([], failed ("Source not found: " +:+ source) MOVE_FILE)
            | Some _ =>
                let moving :=
                  Move (path_str source_path) (path_str dest_path) in
                match perform moving with
                | inr e =>
                    ([moving], failed ("Failed to move: " +:+ e) MOVE_FILE)
                | inl _ =>
                    ([moving],
                     mkResult true
                       ("Moved " +:+ path_name source_path +:+ " to "
                          +:+ path_str dest_path)
                       (Some [("source", FStr (path_str source_path));
                              ("destination", FStr (path_str dest_path))])
                       MOVE_FILE)
                end
            end
        end
    end.

End Handlers.

End FileHandlers.

(** ** [backend/ollama_service.py]: the keyword parser *)
Module OllamaService.
Import PyStr PyLines Models CommandExecutor.

Definition help_indicators : list string :=
  [ "help"; "commands"; "what can you do"; "show me"; "list commands";
    "available commands"; "how to"; "guide"; "tutorial"; "manual";
    "yardım"; "komandalar"; "nə edə bilərsən" ].

Definition question_indicators : list string :=
  [ "what"; "why"; "how"; "when"; "where"; "who";
    "tell me"; "explain"; "describe"; "can you";
    "do you know"; "?"; "nədir"; "necə"; "niyə" ].

Definition command_keywords : list string :=
  [ "open"; "list"; "create"; "delete"; "copy"; "move"; "rename"; "show";
    "display" ].

Definition file_extensions : list string :=
  [ ".jpg"; ".png"; ".pdf"; ".txt"; ".doc"; ".mp4"; ".mp3" ].

(** [any(x in s for x in l)]. *)
Definition any_in (l : list string) (s : string) : bool :=
  existsb (fun x => contains x s) l.

(** The loop [for word in words: if word.lower() not in stop: ...; break]:
    the first word that is not a stop word. *)
Definition first_other_word (stop words : list string) : option string :=
  List.find (fun word => negb (mem (lower word) stop)) words.

(** The loop over [enumerate(words)] that keeps the word after each
    occurrence of [keyword], when there is one: the last occurrence
    decides. *)
Fixpoint word_after (keyword : string) (words : list string)
    (found : option string) : option string :=
  match words with
  | word :: ((next :: _) as rest) =>
      word_after keyword rest
        (if String.eqb (lower word) keyword then Some next else found)
  | _ => found
  end.

(** [s.strip(chars)], in two halves. *)
Fixpoint lstrip_chars (chars : list ascii) (s : string) : string :=
  match s with
  | EmptyString => EmptyString
  | String c s' =>
      if existsb (Ascii.eqb c) chars then lstrip_chars chars s' else s
  end.

Fixpoint rstrip_chars (chars : list ascii) (s : string) : string :=
  match s with
  | EmptyString => EmptyString
  | String c s' =>
      match rstrip_chars chars s' with
      | EmptyString =>
          if existsb (Ascii.eqb c) chars then EmptyString
          else String c EmptyString
      | r => String c r
      end
  end.

Definition strip_chars (chars : list ascii) (s : string) : string :=
  rstrip_chars chars (lstrip_chars chars s).

(** The characters stripped from a file name: double quote, comma,
    single quote. *)
Definition quote_chars : list ascii :=
  [ascii_of_nat 34; ascii_of_nat 44; ascii_of_nat 39].

Definition naming_words : list string :=
  [ "named"; "called"; "name"; "adli"; "adlı" ].

(** The loop that looks for a file name: the first word with a dot
    inside, or the word after the first naming word. *)
Fixpoint find_filename (words : list string) : option string :=
  match words with
  | [] => None
  | word :: rest =>
      if contains "." word && negb (startswith "." word) then
        Some (strip_chars quote_chars word)
      else
        match rest with
        | next :: _ =>
            if mem (lower word) naming_words then
              Some (strip_chars quote_chars next)
            else find_filename rest
        | [] => find_filename rest
        end
  end.

Definition image_pattern : string :=
  "*.{jpg,png,jpeg,gif,bmp,webp,JPG,PNG,JPEG}".

(** [_fallback_parse]. *)
Definition _fallback_parse (message : string) : CommandIntent :=
  let message_lower := lower message in
  if any_in help_indicators message_lower then
    mkCommandIntent HELP {[ "help_type" := "general" ]} message
      (Some "Fallback: detected help request")
  else if any_in question_indicators message_lower
          && negb (any_in command_keywords message_lower) then
    mkCommandIntent CHAT {[ "question" := message ]} message
      (Some "Fallback: detected question/conversation")
  else if contains "open" message_lower || contains "aç" message_lower then
    let words := split message in
    let path :=
      default "~"
        (first_other_word ["open"; "the"; "folder"; "directory"; "file"]
           words) in
    if any_in file_extensions message_lower then
      mkCommandIntent OPEN_FILE {[ "path" := path ]} message
        (Some "Fallback: detected file open request")
    else
      mkCommandIntent OPEN_FOLDER {[ "path" := path ]} message
        (Some "Fallback: detected folder open request")
  else if contains "list" message_lower || contains "show" message_lower
          || contains "göstər" message_lower then
    let pattern :=
      if contains "pdf" message_lower then "*.pdf"
      else if contains "image" message_lower || contains "photo" message_lower
              || contains "picture" message_lower
              || contains "jpg" message_lower || contains "png" message_lower
              || contains "şəkil" message_lower
      then image_pattern
      else "*" in
    let path :=
      if contains "downloads" message_lower
         || contains "yükləmələr" message_lower then "Downloads"
      else if contains "documents" message_lower
              || contains "sənədlər" message_lower then "Documents"
      else if contains "pictures" message_lower
              || contains "şəkillər" message_lower then "Pictures"
      else "." in
    mkCommandIntent LIST_FILES
      (<[ "pattern" := pattern ]> {[ "path" := path ]}) message
      (Some "Fallback: detected file listing request")
  else if contains "delete" message_lower || contains "remove" message_lower
  then
    let words := split message in
    let path := first_other_word ["delete"; "remove"; "the"; "file"] words in
    mkCommandIntent DELETE_FILE
      {[ "path" := default EmptyString path ]} message
      (Some "Fallback: detected delete request")
  else if contains "copy" message_lower then
    let words := split message in
    let source := word_after "copy" words None in
    let dest := word_after "to" words None in
    mkCommandIntent COPY_FILE
      (<[ "destination" := default EmptyString dest ]>
         {[ "source" := default EmptyString source ]}) message
      (Some "Fallback: detected copy request")
  else if contains "rename" message_lower then
    let words := split message in
    let path := word_after "rename" words None in
    let new_name := word_after "to" words None in
    mkCommandIntent RENAME_FILE
      (<[ "new_name" := default EmptyString new_name ]>
         {[ "path" := default EmptyString path ]}) message
      (Some "Fallback: detected rename request")
  else if contains "create" message_lower || contains "yarat" message_lower
          || contains "fayl" message_lower then
    let words := split message in
    let filename := default "newfile.txt" (find_filename words) in
    mkCommandIntent CREATE_FILE {[ "filename" := filename ]} message
      (Some "Fallback: detected file creation request")
  else
    mkCommandIntent UNKNOWN {[ "original_request" := message ]} message
      (Some "Could not determine command type - will try Python fallback").

End OllamaService.

(** ** [backend/main.py]: the chat endpoint up to the execution *)
Module ChatFlow.
Import PyStr Models CommandExecutor.

Local Open Scope Q_scope.

(** The calls of [parse_user_intent], by service. *)
Inductive ParserCall : Type :=
  | OllamaParse (message : string)
  | OpenRouterParse (message : string).

(** What an endpoint does: it returns a value or raises
    [HTTPException(status_code, detail)]. *)
Inductive Http (A : Type) : Type :=
  | Respond (a : A)
  | HTTPException (status_code : Z) (detail : string).
Arguments Respond {A} a.
Arguments HTTPException {A} status_code detail.

(** [ChatMessage], without its time stamp. *)
Record ChatMessage : Type := mkChatMessage {
  role : string;
  content : string;
  command_result : option CommandResult
}.

(** [f"{request.mode}:{request.message.strip()}"]. *)
Definition cache_key (mode message : string) : string :=
  mode +:+ ":" +:+ strip message.

(** [f"chat:{client_ip}"], with [client_ip] the host of the client or
    ["unknown"]. *)
Definition chat_client_id (client_host : option string) : string :=
  "chat:" +:+ default "unknown" client_host.

Section Flow.

(** [parse_user_intent] of the two services. *)
Variable ollama_parse : string -> CommandIntent.
Variable openrouter_parse : string -> CommandIntent.

(** [command_executor.execute(intent)] for a mode: a result, or the
    text of an exception. *)
Variable execute : string -> CommandIntent -> CommandResult + string.

(** [str(e)] of an [HTTPException]. *)
Variable http_exception_str : Z -> string -> string.

(** The step of [process_chat] that finds the intent: the cache
    afterwards, the intent and the parser calls made.  [t_get] and
    [t_set] are the clock readings of [intent_cache.get] and
    [intent_cache.set]. *)
Definition resolve_intent (t_get t_set : Q) (mode message : string)
    (cache : Main.LRUCacheTTL CommandIntent)
  : Main.LRUCacheTTL CommandIntent * CommandIntent * list ParserCall :=
  let key := cache_key mode message in
  match Main.get t_get key cache with
  | (cache, Some intent) => (cache, intent, [])
  | (cache, None) =>
      if String.eqb mode "general" then
        let intent := openrouter_parse message in
        (Main.set t_set key intent cache, intent, [OpenRouterParse message])
      else
        let intent := ollama_parse message in
        (Main.set t_set key intent cache, intent, [OllamaParse message])
  end.

(** [process_chat]: the two tables afterwards, the parser calls made
    and the answer.  [t_limit] is the clock reading of
    [_allow_request]. *)
Definition process_chat (t_limit t_get t_set : Q)
    (client_host : option string) (mode message : string)
    (buckets : gmap string (list Q))
    (cache : Main.LRUCacheTTL CommandIntent)
  : gmap string (list Q) * Main.LRUCacheTTL CommandIntent
    * list ParserCall * Http ChatMessage :=
  let '(buckets, allowed) :=
    Main._allow_request t_limit (chat_client_id client_host) buckets in
  if negb allowed then
    (buckets, cache, [],
     HTTPException 500
       (http_exception_str 429 "Too many requests, please slow down."))
  else
    let '(cache, intent, calls) :=
      resolve_intent t_get t_set mode message cache in
    match execute mode intent with
    | inl result =>
        (buckets, cache, calls,
         Respond (mkChatMessage "assistant" (Models.message result) (Some result)))
    | inr e => (buckets, cache, calls, HTTPException 500 e)
    end.

End Flow.

End ChatFlow.

(** ** Further concrete inputs *)
Module Fixtures.
Import PyStr PyLines Subprocess Models CommandExecutor.

(** A child that never finishes in time. *)
Definition timed_out (call : Call) : Outcome := TimeoutExpired.


(** An operating system on which every effect goes through, and a
    generator that answers every prompt with the same text. *)
Definition obliging (effect : FileHandlers.Effect) : string + string :=
  match effect with
  | FileHandlers.Generate _ _ => inl "Cats are small felines."
  | _ => inl EmptyString
  end.

(** Every file has forty-two bytes. *)
Definition forty_two (p : Path) : Z := 42.

(** Parameters of a rename and of a creation. *)
Definition rename_params (path new_name : string) : gmap string string :=
  <[ "new_name" := new_name ]> {[ "path" := path ]}.

Definition create_params (filename content : string) : gmap string string :=
  <[ "content" := content ]> {[ "filename" := filename ]}.

(** Parameters of a writing and of a copy or move. *)
Definition write_params (path content : string) : gmap string string :=
  <[ "content" := content ]> {[ "path" := path ]}.

Definition copy_params (source destination : string) : gmap string string :=
  <[ "destination" := destination ]> {[ "source" := source ]}.

(** An executor that reports success for every intent. *)
Definition agreeable (mode : string) (intent : CommandIntent)
  : CommandResult + string :=
  inl (result true "done" (intent_command_type intent)).

(** The text of an [HTTPException]: the status and the detail. *)
Definition status_and_detail (status_code : Z) (detail : string) : string :=
  of_Z status_code +:+ ": " +:+ detail.

(** A table in which the chat bucket of a client is full. *)
Definition chat_client : string := ChatFlow.chat_client_id (Some "127.0.0.1").
Definition full_table : gmap string (list Q) :=
  (Main.serve (Main.from_client chat_client (0%Q :: Scenarios.burst)) ∅).1.

(** The intent cache at start, for intents. *)
Definition empty_cache : Main.LRUCacheTTL CommandIntent := Main.intent_cache.

End Fixtures.

(** * Properties *)

(** ** Facts about the string primitives *)
Module PyStrFacts.
Import PyStr.




Lemma take_all (n : nat) (s : string) :
  (String.length s <= n)%nat -> take n s = s.
Proof.
  revert s. induction n as [|n IH]; intros [|c s]; simpl; intros H;
    try reflexivity; try lia.
  f_equal. apply IH. lia.
Qed.

(** [take] only ever returns a beginning of its argument. *)
Lemma take_prefix (n : nat) (s : string) :
  exists rest, s = take n s +:+ rest.
Proof.
  revert s. induction n as [|n IH]; intros s.
  - exists s. reflexivity.
  - destruct s as [|c s].
    + exists EmptyString. reflexivity.
    + destruct (IH s) as [rest Hrest]. exists rest.
      change (String c s = String c (take n s +:+ rest)). f_equal.
      exact Hrest.
Qed.

Lemma length_replicate_char (n : nat) (c : ascii) :
  String.length (replicate_char n c) = n.
Proof. induction n; simpl; congruence. Qed.

End PyStrFacts.

(** ** Facts about the Python executor *)
Module PythonExecutorFacts.
Import PyStr PyLines Subprocess PythonExecutor PyStrFacts.

Section Facts.
Variable ollama_service : option (string -> option Context -> Reply).
Variable run : Call -> Outcome.
Variable home : string.

(** [execute_python_code] starts exactly one child, on the code given. *)
Lemma python_code_log code working_dir :
  exists wd,
    (execute_python_code run home code working_dir).1
    = [python_call code wd].
Proof.
  unfold execute_python_code.
  match goal with
  | |- context [run (python_call code ?d)] => exists d; destruct (run (python_call code d))
  end; reflexivity.
Qed.

Lemma python_calls code working_dir call :
  In call (execute_python_code run home code working_dir).1 ->
  exists wd, call = python_call code wd.
Proof.
  destruct (python_code_log code working_dir) as [wd ->].
  intros [<-|[]]. now exists wd.
Qed.

(** Without a working directory the child runs in the home directory. *)
Lemma python_code_log_home code :
  (execute_python_code run home code None).1 = [python_call code home].
Proof.
  unfold execute_python_code. destruct (run (python_call code home));
    reflexivity.
Qed.

(** [execute_with_python] runs whatever was generated, provided it is
    long enough: nothing else is asked of the code. *)
Lemma with_python_runs_generated user_request context :
  let code := generate_python_code ollama_service user_request context in
  truthy code = true ->
  10 <= len (strip code) ->
  (execute_with_python ollama_service run home user_request context).1
  = [python_call code home].
Proof.
  intros code Htruthy Hlen. unfold execute_with_python. fold code.
  rewrite Htruthy. simpl negb. simpl orb.
  destruct (len (strip code) <? 10) eqn:Hlt; [lia|].
  pose proof (python_code_log_home code) as Hlog.
  destruct (execute_python_code run home code None) as [calls [[ok out] err]].
  simpl in *. exact Hlog.
Qed.

Lemma with_python_calls user_request context call :
  In call
    (execute_with_python ollama_service run home user_request context).1 ->
  exists code wd, call = python_call code wd.
Proof.
  unfold execute_with_python.
  set (code := generate_python_code ollama_service user_request context).
  destruct (negb (truthy code) || (len (strip code) <? 10));
    [intros []|].
  pose proof (python_code_log_home code) as Hlog.
  destruct (execute_python_code run home code None) as [calls [[ok out] err]].
  simpl in *. subst calls. intros [<-|[]]. now exists code, home.
Qed.

End Facts.

End PythonExecutorFacts.

(** ** Facts about the file system without symbolic links *)
Module LexicalPathsFacts.
Import LexicalPaths.

(** A component of a canonical path: not empty, not a dot, not two. *)
Lemma walk_proper (stack components : list string) :
  Forall (fun c => c <> "" /\ c <> "." /\ c <> "..") stack ->
  Forall (fun c => c <> "" /\ c <> "." /\ c <> "..")
         (walk stack components).
Proof.
  revert stack. induction components as [|c cs IH]; intros stack Hstack;
    [exact Hstack|].
  simpl.
  destruct (String.eqb_spec c "") as [->|Hempty]; [now apply IH|].
  destruct (String.eqb_spec c ".") as [->|Hdot]; [now apply IH|].
  simpl. destruct (String.eqb_spec c "..") as [->|Hup].
  - apply IH. destruct stack; [constructor | now inversion Hstack].
  - apply IH. constructor; [tauto | exact Hstack].
Qed.

(** Resolution from a canonical current directory gives an absolute
    canonical path: the root, then proper components only. *)
Lemma resolve_canonical (cwd : list string) (s : string) :
  Forall (fun c => c <> "" /\ c <> "." /\ c <> "..") cwd ->
  exists components,
    resolve cwd s = "/" :: components
    /\ Forall (fun c => c <> "" /\ c <> "." /\ c <> "..") components.
Proof.
  intros Hcwd. unfold resolve. eexists. split; [reflexivity|].
  apply Forall_rev, walk_proper.
  destruct (PyStr.startswith "/" s); [constructor | now apply Forall_rev].
Qed.

End LexicalPathsFacts.

(** ** The command gate of [_execute_command] *)
Module CommandGate.
Import PyStr PyLines Subprocess Models CommandExecutor PyStrFacts.

Section Gate.
Variable expanduser : string -> string.
Variable run : Call -> Outcome.

(** A base command outside the allow-list ends the evaluation at once. *)
Lemma not_allowlisted_denied params base_command rest :
  split (command_of params) = base_command :: rest ->
  mem base_command safe_commands = false ->
  _execute_command expanduser run params
  = ([], result false not_allowed_message EXECUTE_COMMAND).
Proof.
  intros Hsplit Hmem. unfold _execute_command.
  rewrite Hsplit, Hmem. reflexivity.
Qed.


(** Every child that [_execute_command] starts is of one of the two
    kinds, each with its own timeout. *)
Lemma execute_command_calls params call :
  In call (_execute_command expanduser run params).1 ->
  (_execute_command expanduser run params).1 = [call] /\
  (call = shell_call expanduser (command_of params)
   \/ call = argv_call expanduser (split (command_of params))).
Proof.
  unfold _execute_command.
  destruct (split (command_of params)) as [|base_command rest] eqn:Hsplit;
    [simpl; tauto|].
  destruct (mem base_command safe_commands); simpl negb; cbv iota;
    [|simpl; tauto].
  destruct (List.find _ dangerous_patterns); [simpl; tauto|].
  match goal with
  | |- context [run ?c] => set (the_call := c) in *
  end.
  assert (Hkind : the_call = shell_call expanduser (command_of params)
                  \/ the_call = argv_call expanduser (base_command :: rest)).
  { subst the_call.
    destruct (contains "|" _ || contains ">" _ || contains "&&" _
              || contains "||" _); auto. }
  destruct (run the_call); simpl; intros [<-|[]]; auto.
Qed.


(** C2, as the code has it.  The allow-list is consulted first: when the
    first whitespace token of the command is not on it,
    [_execute_command] starts no child process and answers with the
    allow-list message, whatever the command contains, and that message
    cites no deny-list pattern.  The command [rm -rf /] is denied in
    this way, although its case-folded text contains the pattern
    [rm -]. *)
Theorem allow_list_checked_first :
  (forall params base_command rest,
      split (command_of params) = base_command :: rest ->
      mem base_command safe_commands = false ->
      _execute_command expanduser run params
      = ([], result false not_allowed_message EXECUTE_COMMAND))
  /\ (forall pattern, not_allowed_message <> blocked_message pattern)
  /\ (forall params,
        command_of params = "rm -rf /" ->
        contains "rm -" (lower (command_of params)) = true /\
        _execute_command expanduser run params
        = ([], result false not_allowed_message EXECUTE_COMMAND)).
Proof.
  split; [|split].
  - intros params base_command rest Hsplit Hmem.
    eapply not_allowlisted_denied; eassumption.
  - intros pattern H. vm_compute in H. discriminate H.
  - intros params Hcmd. split; [rewrite Hcmd; reflexivity|].
    apply not_allowlisted_denied with (base_command := "rm")
                                      (rest := ["-rf"; "/"]);
      [rewrite Hcmd|]; reflexivity.
Qed.

(** C5, as the code has it.  Every child that [_execute_command] starts
    is either an argument-vector call with a timeout of 10 seconds or a
    shell call with a timeout of 15 seconds; every child started for a
    generated script has a timeout of 5 seconds.  So the script timeout
    is the shortest, then the literal command, then the shell command. *)
Theorem timeouts_by_kind :
  (forall params call,
      In call (_execute_command expanduser run params).1 ->
      (shell call = false /\ timeout call = 10)
      \/ (shell call = true /\ timeout call = 15))
  /\ (forall service home user_request context call,
        In call (PythonExecutor.execute_with_python service run home
                   user_request context).1 ->
        timeout call = PythonExecutor.execution_timeout)
  /\ (forall cmd_parts command,
        PythonExecutor.execution_timeout
        < timeout (argv_call expanduser cmd_parts)
        < timeout (shell_call expanduser command)).
Proof.
  split; [|split].
  - intros params call Hin.
    apply execute_command_calls in Hin as [_ [->| ->]];
      [right | left]; split; reflexivity.
  - intros service home user_request context call Hin.
    eapply PythonExecutorFacts.with_python_calls in Hin.
    destruct Hin as (c & wd & ->). reflexivity.
  - intros cmd_parts command. unfold PythonExecutor.execution_timeout.
    simpl. lia.
Qed.

End Gate.

Import Scenarios.


(** C2 as stated fails: [rm -rf /] is denied, but the reason is the
    allow-list message; no pattern of the deny-list is cited although
    the case-folded command contains one. *)
Lemma rm_rf_reason_counterexample :
  let r := (_execute_command expanduser quiet (command_params "rm -rf /")).2 in
  mem "rm -" dangerous_patterns = true /\
  contains "rm -" (lower "rm -rf /") = true /\
  message r = not_allowed_message /\
  ~ (exists pattern, message r = blocked_message pattern).
Proof.
  repeat split; try (vm_compute; reflexivity).
  intros [pattern H]. vm_compute in H. discriminate H.
Qed.

(** The command is folded to lower case and the patterns are not, so a
    pattern with a capital letter matches no command: [kill -STOP 1]
    passes the gate and is run as a literal command. *)
Example capital_pattern_never_matches :
  mem "kill -STOP" dangerous_patterns = true
  /\ contains "kill -STOP" (lower "kill -STOP 1") = false
  /\ (_execute_command expanduser quiet (command_params "kill -STOP 1")).1
     = [argv_call expanduser ["kill"; "-STOP"; "1"]].
Proof. repeat split; vm_compute; reflexivity. Qed.

Lemma allow_list_checked_first_witness :
  _execute_command expanduser quiet (command_params "rm -rf /")
  = ([], result false not_allowed_message EXECUTE_COMMAND)
  /\ _execute_command expanduser quiet (command_params "shutdown now")
     = ([], result false not_allowed_message EXECUTE_COMMAND).
Proof.
  destruct (allow_list_checked_first expanduser quiet) as (Hgate & _ & Hrm).
  split.
  - apply Hrm. vm_compute. reflexivity.
  - apply (Hgate (command_params "shutdown now") "shutdown" ["now"]).
    + vm_compute. reflexivity.
    + vm_compute. reflexivity.
Defined.

(** C5 as stated fails: the timeouts of a literal command, of a shell
    command and of a generated script are 10, 15 and 5 seconds. *)
Lemma timeout_order_counterexample :
  let literal := (_execute_command expanduser quiet (command_params "ls -la")).1 in
  let piped :=
    (_execute_command expanduser quiet (command_params "ls | grep foo")).1 in
  let script :=
    (PythonExecutor.execute_with_python None quiet home
       "list the files" None).1 in
  map shell literal = [false] /\ map shell piped = [true] /\
  map timeout literal = [10] /\ map timeout piped = [15] /\
  map timeout script = [5] /\
  ~ (10 < 15 < 5).
Proof.
  repeat split; try (vm_compute; reflexivity). lia.
Qed.

Lemma timeouts_by_kind_witness :
  ((shell (argv_call expanduser ["ls"; "-la"]) = false /\
    timeout (argv_call expanduser ["ls"; "-la"]) = 10)
   \/ (shell (argv_call expanduser ["ls"; "-la"]) = true /\
       timeout (argv_call expanduser ["ls"; "-la"]) = 15))
  /\ timeout (PythonExecutor.python_call PythonExecutor.fallback_list_files home)
     = PythonExecutor.execution_timeout.
Proof.
  destruct (timeouts_by_kind expanduser quiet) as (Hcmd & Hpy & _).
  split.
  - apply (Hcmd (command_params "ls -la")). vm_compute. left. reflexivity.
  - apply (Hpy None home "list the files" None). vm_compute. left.
    reflexivity.
Defined.

End CommandGate.

(** ** The sandbox: generated scripts and captured output *)
Module Sandbox.
Import PyStr PyLines Subprocess Models PyStrFacts.
Import PythonExecutor CommandExecutor Scenarios.


Lemma can_handle_true user_request failed_command_type :
  can_handle_with_python user_request failed_command_type = true.
Proof.
  unfold can_handle_with_python.
  destruct (bool_decide _ || bool_decide _); [reflexivity|].
  destruct (existsb _ _); reflexivity.
Qed.

(** C9.  [can_handle_with_python] answers [True] for every request and
    every failed command type, so [_try_python_fallback] never takes
    the branch that gives up: its result always has [python_mode] set. *)
Theorem can_handle_with_python_always :
  (forall user_request failed_command_type,
      can_handle_with_python user_request failed_command_type = true)
  /\ (forall expanduser service run intent original_error,
        python_mode
          (_try_python_fallback expanduser service run intent
             original_error).2 = true).
Proof.
  split.
  - intros user_request failed_command_type.
    unfold can_handle_with_python.
    destruct (bool_decide _ || bool_decide _); [reflexivity|].
    destruct (existsb _ _); reflexivity.
  - intros expanduser service run intent original_error.
    unfold _try_python_fallback. rewrite can_handle_true. simpl negb.
    cbv iota.
    destruct (execute_with_python _ _ _ _ _) as [calls r]. reflexivity.
Qed.

(** C4, on the code.  A generated script that imports [subprocess] is
    one that [is_safe_code] rejects, yet [execute_with_python] hands it
    to the child process and reports its success: the scan is never
    called on the way. *)
Theorem unsafe_script_is_run :
  let outcome :=
    execute_with_python unsafe_service quiet home "show my files" None in
  is_safe_code unsafe_script = (false, "Subprocess execution not allowed") /\
  generate_python_code unsafe_service "show my files" None = unsafe_script /\
  outcome.1 = [python_call unsafe_script home] /\
  py_success outcome.2 = true /\
  py_code outcome.2 = unsafe_script.
Proof. repeat split; vm_compute; reflexivity. Qed.

Section Output.
Variable expanduser : string -> string.
Variable run : Call -> Outcome.
Variable home : string.



End Output.



End Sandbox.

(** ** Admission control: the rate limiter *)
Module RateLimiter.
Import Main.

Local Open Scope Q_scope.

Lemma Qltb_true (x y : Q) : Qltb x y = true <-> x < y.
Proof.
  unfold Qltb. rewrite negb_true_iff, <- not_true_iff_false, Qle_bool_iff.
  split; [apply Qnot_le_lt | apply Qlt_not_le].
Qed.

Lemma Qltb_false (x y : Q) : Qltb x y = false <-> y <= x.
Proof.
  unfold Qltb. rewrite negb_false_iff. apply Qle_bool_iff.
Qed.

(** A head inside the window stops the pruning at once. *)
Lemma drop_old_keep window_start t0 rest :
  window_start <= t0 -> drop_old window_start (t0 :: rest) = t0 :: rest.
Proof.
  intros H. simpl. apply Qltb_false in H. rewrite H. reflexivity.
Qed.

(** Readings that are all too old are all dropped. *)
Lemma drop_old_all window_start dq :
  Forall (fun t => t < window_start) dq -> drop_old window_start dq = [].
Proof.
  induction 1 as [|t0 rest Hold _ IH]; [reflexivity|].
  simpl. apply Qltb_true in Hold. rewrite Hold. exact IH.
Qed.

Lemma drop_old_length window_start dq :
  (length (drop_old window_start dq) <= length dq)%nat.
Proof.
  induction dq as [|t0 rest IH]; simpl; [lia|].
  destruct (Qltb t0 window_start); simpl; lia.
Qed.

Lemma allow_request_bounded now client_id buckets :
  bounded buckets -> bounded (_allow_request now client_id buckets).1.
Proof.
  intros Hb. unfold _allow_request.
  set (dq := drop_old _ _).
  assert (Hdq : (length dq <= RATE_LIMIT_MAX_REQUESTS)%nat
                \/ (RATE_LIMIT_MAX_REQUESTS <=? length dq)%nat = false).
  { destruct (RATE_LIMIT_MAX_REQUESTS <=? length dq)%nat eqn:E; [|auto].
    left. subst dq.
    etransitivity; [apply drop_old_length|].
    destruct (buckets !! client_id) as [old|] eqn:Hold; simpl.
    - eapply Hb; eassumption.
    - unfold RATE_LIMIT_MAX_REQUESTS. lia. }
  destruct (RATE_LIMIT_MAX_REQUESTS <=? length dq)%nat eqn:E; simpl;
    intros c l Hl.
  - destruct (decide (client_id = c)) as [->|Hne].
    + rewrite lookup_insert_eq in Hl. injection Hl as <-.
      destruct Hdq as [H|H]; [exact H | discriminate H].
    + rewrite lookup_insert_ne in Hl by exact Hne. eapply Hb; eassumption.
  - destruct (decide (client_id = c)) as [->|Hne].
    + rewrite lookup_insert_eq in Hl. injection Hl as <-.
      apply Nat.leb_gt in E. rewrite length_app. simpl. lia.
    + rewrite lookup_insert_ne in Hl by exact Hne. eapply Hb; eassumption.
Qed.

Lemma serve_bounded requests buckets :
  bounded buckets -> bounded (serve requests buckets).1.
Proof.
  revert buckets. induction requests as [|[now client_id] rest IH];
    intros buckets Hb; [exact Hb|].
  simpl. pose proof (allow_request_bounded now client_id buckets Hb) as H1.
  destruct (_allow_request now client_id buckets) as [b1 ok]. simpl in H1.
  specialize (IH b1 H1). destruct (serve rest b1) as [b2 oks]. exact IH.
Qed.

Lemma empty_bounded : bounded ∅.
Proof. intros c l H. rewrite lookup_empty in H. discriminate H. Qed.

(** While the oldest reading [t0] of a bucket stays inside the window
    nothing is pruned, and the bucket fills up to the maximum. *)
Lemma serve_in_window client_id t0 times :
  forall dq buckets,
    buckets !! client_id = Some (t0 :: dq) ->
    Forall (fun t => t - RATE_LIMIT_WINDOW_SEC <= t0) times ->
    (serve (from_client client_id times) buckets).2
    = answers (RATE_LIMIT_MAX_REQUESTS - length (t0 :: dq)) (length times).
Proof.
  induction times as [|t rest IH]; intros dq buckets Hb Hwin.
  { unfold answers. rewrite Nat.min_0_r. reflexivity. }
  apply Forall_cons in Hwin as [Ht Hrest].
  simpl serve. unfold _allow_request at 1. rewrite Hb. simpl default.
  rewrite drop_old_keep by exact Ht.
  destruct (RATE_LIMIT_MAX_REQUESTS <=? length (t0 :: dq))%nat eqn:E.
  - specialize (IH dq (<[client_id := t0 :: dq]> buckets)
                  (lookup_insert_eq _ _ _) Hrest).
    fold (from_client client_id rest).
    destruct (serve (from_client client_id rest) _) as [b2 oks].
    change (oks = answers (RATE_LIMIT_MAX_REQUESTS - length (t0 :: dq))
                    (length rest)) in IH.
    change (false :: oks
            = answers (RATE_LIMIT_MAX_REQUESTS - length (t0 :: dq))
                (S (length rest))).
    rewrite IH. apply Nat.leb_le in E.
    assert (Hk : (RATE_LIMIT_MAX_REQUESTS - length (t0 :: dq) = 0)%nat)
      by lia.
    rewrite Hk. unfold answers. simpl. rewrite Nat.sub_0_r. reflexivity.
  - specialize (IH (dq ++ [t]) (<[client_id := (t0 :: dq) ++ [t]]> buckets)
                  (lookup_insert_eq _ _ _) Hrest).
    fold (from_client client_id rest).
    destruct (serve (from_client client_id rest) _) as [b2 oks].
    change (oks = answers
                    (RATE_LIMIT_MAX_REQUESTS - length (t0 :: dq ++ [t]))
                    (length rest)) in IH.
    change (true :: oks
            = answers (RATE_LIMIT_MAX_REQUESTS - length (t0 :: dq))
                (S (length rest))).
    rewrite IH. apply Nat.leb_gt in E.
    assert (Hk : (RATE_LIMIT_MAX_REQUESTS - length (t0 :: dq)
                  = S (RATE_LIMIT_MAX_REQUESTS - length (t0 :: dq ++ [t])))%nat).
    { simpl length in *. rewrite length_app. simpl length. lia. }
    rewrite Hk. reflexivity.
Qed.

(** C7.  For one client whose bucket is empty, requests whose clock
    readings all lie within one window length of the first are answered
    as follows: the first [RATE_LIMIT_MAX_REQUESTS] are admitted and
    every further one is refused.  When all readings of a bucket are
    older than the window, the pruning empties it and the request is
    admitted into a bucket that holds this request alone.  In every
    table reached from the empty one, no bucket holds more than
    [RATE_LIMIT_MAX_REQUESTS] readings. *)
Theorem rate_limiter_window :
  (forall client_id buckets t0 times,
      default [] (buckets !! client_id) = [] ->
      Forall (fun t => t - RATE_LIMIT_WINDOW_SEC <= t0) times ->
      (serve (from_client client_id (t0 :: times)) buckets).2
      = replicate (Nat.min RATE_LIMIT_MAX_REQUESTS (length (t0 :: times))) true
        ++ replicate (length (t0 :: times) - RATE_LIMIT_MAX_REQUESTS) false)
  /\ (forall client_id buckets now,
        Forall (fun t => t < now - RATE_LIMIT_WINDOW_SEC)
               (default [] (buckets !! client_id)) ->
        _allow_request now client_id buckets
        = (<[client_id := [now]]> buckets, true))
  /\ (forall requests client_id dq,
        (serve requests ∅).1 !! client_id = Some dq ->
        (length dq <= RATE_LIMIT_MAX_REQUESTS)%nat).
Proof.
  split; [|split].
  - intros client_id buckets t0 times Hempty Hwin.
    simpl serve. unfold _allow_request at 1. rewrite Hempty. simpl.
    pose proof (serve_in_window client_id t0 times []
                  (<[client_id := [t0]]> buckets)
                  (lookup_insert_eq _ _ _) Hwin) as H.
    fold (from_client client_id times).
    destruct (serve (from_client client_id times) _) as [b2 oks].
    simpl in H |- *. rewrite H. unfold answers. reflexivity.
  - intros client_id buckets now Hold. unfold _allow_request.
    rewrite (drop_old_all _ _ Hold). reflexivity.
  - intros requests client_id dq.
    apply (serve_bounded requests ∅ empty_bounded).
Qed.

End RateLimiter.

Import Scenarios.

Lemma rate_limiter_window_witness :
  (Main.serve (Main.from_client client (0%Q :: burst)) ∅).2
  = replicate
      (Nat.min Main.RATE_LIMIT_MAX_REQUESTS (length (0%Q :: burst))) true
    ++ replicate (length (0%Q :: burst) - Main.RATE_LIMIT_MAX_REQUESTS) false
  /\ Main._allow_request 41%Q client burst_table
     = (<[client := [41%Q]]> burst_table, true)
  /\ (length [0; 1; 2; 3; 4; 5; 6; 7; 8; 9]%Q
      <= Main.RATE_LIMIT_MAX_REQUESTS)%nat.
Proof.
  destruct RateLimiter.rate_limiter_window as (Hwin & Hreset & Hinv).
  split; [|split].
  - apply (Hwin client ∅ 0%Q burst).
    + reflexivity.
    + repeat constructor; vm_compute; discriminate.
  - apply (Hreset client burst_table 41%Q).
    vm_compute default. repeat constructor; vm_compute; reflexivity.
  - apply (Hinv (Main.from_client client (0%Q :: burst)) client).
    vm_compute. reflexivity.
Defined.

(** ** Facts about the ordered dictionary *)
Module OrderedDictFacts.
Import OrderedDict.

Section Facts.
Context {X : Type}.
Implicit Types (d : OrderedDict.t X) (key : string) (x : X).

Lemma get_None key d : get key d = None <-> key ∉ keys d.
Proof.
  induction d as [|[k y] rest IH]; simpl.
  - split; [intros _; apply not_elem_of_nil | reflexivity].
  - rewrite not_elem_of_cons. destruct (String.eqb_spec k key) as [->|Hne].
    + split; [discriminate | intros [[] _]; reflexivity].
    + rewrite IH. split; [intros H; split; [congruence | exact H] | tauto].
Qed.

Lemma get_setitem key x d : get key (setitem key x d) = Some x.
Proof.
  induction d as [|[k y] rest IH]; simpl.
  - now rewrite String.eqb_refl.
  - destruct (String.eqb_spec k key) as [->|Hne]; simpl.
    + now rewrite String.eqb_refl.
    + destruct (String.eqb_spec k key); [contradiction | exact IH].
Qed.

Lemma delitem_setitem key x d :
  delitem key (setitem key x d) = delitem key d.
Proof.
  induction d as [|[k y] rest IH]; simpl.
  - now rewrite String.eqb_refl.
  - destruct (String.eqb_spec k key) as [->|Hne]; simpl.
    + now rewrite String.eqb_refl.
    + destruct (String.eqb_spec k key); [contradiction | now rewrite IH].
Qed.

(** Assigning and then moving to the end: the old entry of the key, if
    any, is gone and the new one is last. *)
Lemma move_to_end_setitem key x d :
  move_to_end key (setitem key x d) = delitem key d ++ [(key, x)].
Proof.
  unfold move_to_end. now rewrite get_setitem, delitem_setitem.
Qed.

Lemma delitem_absent key d : get key d = None -> delitem key d = d.
Proof.
  induction d as [|[k y] rest IH]; simpl; [reflexivity|].
  destruct (String.eqb k key); [discriminate|].
  intros H. now rewrite IH.
Qed.

Lemma length_delitem_present key x d :
  get key d = Some x -> S (length (delitem key d)) = length d.
Proof.
  induction d as [|[k y] rest IH]; simpl; [discriminate|].
  destruct (String.eqb k key); [reflexivity|].
  intros H. simpl. now rewrite IH.
Qed.

Lemma keys_delitem key d k : k ∈ keys (delitem key d) -> k ∈ keys d.
Proof.
  induction d as [|[k' y] rest IH]; simpl; [tauto|].
  destruct (String.eqb k' key); simpl.
  - apply list_elem_of_further.
  - rewrite !elem_of_cons. intros [->|H]; [now left | right; now apply IH].
Qed.

Lemma NoDup_delitem key d :
  NoDup (keys d) -> NoDup (keys (delitem key d)) /\ key ∉ keys (delitem key d).
Proof.
  induction d as [|[k y] rest IH]; simpl.
  - intros _. split; [constructor | apply not_elem_of_nil].
  - rewrite NoDup_cons. intros [Hk Hrest].
    destruct (String.eqb_spec k key) as [->|Hne]; simpl.
    + split; assumption.
    + destruct (IH Hrest) as [Hnd Hnot]. split.
      * apply NoDup_cons. split; [|exact Hnd].
        intros H. apply Hk. eapply keys_delitem. exact H.
      * rewrite not_elem_of_cons. split; [congruence | exact Hnot].
Qed.

Lemma get_delitem_eq key d :
  NoDup (keys d) -> get key (delitem key d) = None.
Proof. intros H. apply get_None. now apply NoDup_delitem. Qed.

Lemma get_delitem_ne key k d :
  k <> key -> get k (delitem key d) = get k d.
Proof.
  intros Hne. induction d as [|[k' y] rest IH]; simpl; [reflexivity|].
  destruct (String.eqb_spec k' key) as [->|Hne']; simpl.
  - destruct (String.eqb_spec key k); [congruence | reflexivity].
  - now rewrite IH.
Qed.

Lemma get_app_last key x d :
  key ∉ keys d -> get key (d ++ [(key, x)]) = Some x.
Proof.
  induction d as [|[k y] rest IH]; simpl.
  - intros _. now rewrite String.eqb_refl.
  - rewrite not_elem_of_cons. intros [Hne Hrest].
    destruct (String.eqb_spec k key); [congruence | now apply IH].
Qed.

Lemma keys_app_last key x d : keys (d ++ [(key, x)]) = keys d ++ [key].
Proof. unfold keys. now rewrite map_app. Qed.

Lemma NoDup_app_last key x d :
  NoDup (keys d) -> key ∉ keys d -> NoDup (keys (d ++ [(key, x)])).
Proof.
  intros Hnd Hnot. rewrite keys_app_last. apply NoDup_app.
  split; [exact Hnd|]. split.
  - intros k Hk Hin. apply list_elem_of_singleton in Hin. now subst.
  - apply NoDup_singleton.
Qed.

End Facts.

End OrderedDictFacts.

(** ** Admission control: the intent cache *)
Module IntentCache.
Import OrderedDictFacts.

Local Open Scope Q_scope.

Section Cache.
Context {V : Type}.
Implicit Types (c : Main.LRUCacheTTL V) (key : string) (value : V) (now ts : Q).

(** The store that [set] builds before it looks at the capacity. *)
Lemma set_store now key value c :
  let s := OrderedDict.delitem key (Main.store c) ++ [(key, (now, value))] in
  Main.store (Main.set now key value c)
  = if (Main.max_size c <? length s)%nat then tl s else s.
Proof.
  unfold Main.set. rewrite move_to_end_setitem. simpl.
  destruct (_ <? _)%nat; reflexivity.
Qed.

Lemma length_delitem_le key (d : OrderedDict.t (Q * V)) :
  (length (OrderedDict.delitem key d) <= length d)%nat.
Proof.
  destruct (OrderedDict.get key d) as [x|] eqn:Hget.
  - apply length_delitem_present in Hget. lia.
  - rewrite delitem_absent by exact Hget. lia.
Qed.

Lemma NoDup_keys_tl (d : OrderedDict.t (Q * V)) :
  NoDup (OrderedDict.keys d) -> NoDup (OrderedDict.keys (tl d)).
Proof.
  destruct d as [|e rest]; simpl; [auto|].
  rewrite NoDup_cons. tauto.
Qed.

Lemma set_max_size now key value c :
  Main.max_size (Main.set now key value c) = Main.max_size c.
Proof. unfold Main.set. destruct (_ <? _)%nat; reflexivity. Qed.

Lemma set_wf now key value c : Main.wf c -> Main.wf (Main.set now key value c).
Proof.
  intros [Hnd Hlen]. unfold Main.wf. rewrite set_max_size, set_store.
  cbv zeta.
  set (s := OrderedDict.delitem key (Main.store c) ++ [(key, (now, value))]).
  assert (Hs : NoDup (OrderedDict.keys s)).
  { destruct (NoDup_delitem key _ Hnd). now apply NoDup_app_last. }
  assert (Hls : (length s <= S (length (Main.store c)))%nat).
  { subst s. rewrite length_app. simpl.
    pose proof (length_delitem_le key (Main.store c)). lia. }
  destruct (Main.max_size c <? length s)%nat eqn:E.
  - split; [now apply NoDup_keys_tl|].
    destruct s; simpl in *; lia.
  - apply Nat.ltb_ge in E. split; assumption.
Qed.

Lemma get_wf now key c : Main.wf c -> Main.wf (Main.get now key c).1.
Proof.
  intros [Hnd Hlen]. unfold Main.get.
  destruct (OrderedDict.get key (Main.store c)) as [[ts value]|] eqn:Hget;
    [|split; assumption].
  destruct (NoDup_delitem key _ Hnd) as [Hnd' Hnot].
  pose proof (length_delitem_present _ _ _ Hget) as Hl.
  destruct (Main.Qltb _ _); unfold Main.wf; simpl.
  - split; [exact Hnd' | lia].
  - unfold OrderedDict.move_to_end. rewrite Hget. split.
    + now apply NoDup_app_last.
    + rewrite length_app. simpl. lia.
Qed.

(** After [set] the key is present with the time of the call, and it is
    the last entry, provided the cache can hold an entry at all. *)
Lemma set_records now key value c :
  Main.wf c -> (0 < Main.max_size c)%nat ->
  OrderedDict.get key (Main.store (Main.set now key value c))
  = Some (now, value)
  /\ last (Main.store (Main.set now key value c)) = Some (key, (now, value)).
Proof.
  intros [Hnd Hlen] Hpos. rewrite set_store. cbv zeta.
  destruct (NoDup_delitem key _ Hnd) as [Hnd' Hnot].
  destruct (_ <? _)%nat eqn:E.
  - apply Nat.ltb_lt in E. rewrite length_app in E. simpl in E.
    destruct (OrderedDict.delitem key (Main.store c)) as [|e r];
      [simpl in E; lia|].
    simpl tl. apply not_elem_of_cons in Hnot as [_ Hnot].
    split; [now apply get_app_last | apply last_snoc].
  - split; [now apply get_app_last | apply last_snoc].
Qed.

(** C8.  In a cache whose capacity is at least one: a lookup of a key
    whose recorded time is more than [ttl] seconds before the clock
    returns nothing and removes the entry, leaving the others as they
    were; a lookup within [ttl] returns the value and moves the entry
    to the most recent end, its time unchanged; [set] records the
    entry with the time of the call as the most recent one; a [set] of
    a new key into a full cache removes the least recently used entry,
    the first one, and nothing else; any other [set] removes nothing
    but the key's own old entry. *)
Theorem lru_cache_ttl c key now :
  Main.wf c -> (0 < Main.max_size c)%nat ->
  (forall ts value,
      OrderedDict.get key (Main.store c) = Some (ts, value) ->
      inject_Z (Main.ttl c) < now - ts ->
      Main.get now key c
      = (Main.with_store c (OrderedDict.delitem key (Main.store c)), None)
      /\ OrderedDict.get key (OrderedDict.delitem key (Main.store c)) = None
      /\ forall k, k <> key ->
           OrderedDict.get k (OrderedDict.delitem key (Main.store c))
           = OrderedDict.get k (Main.store c))
  /\ (forall ts value,
        OrderedDict.get key (Main.store c) = Some (ts, value) ->
        now - ts <= inject_Z (Main.ttl c) ->
        Main.get now key c
        = (Main.with_store c
             (OrderedDict.delitem key (Main.store c) ++ [(key, (ts, value))]),
           Some value))
  /\ (forall value,
        OrderedDict.get key (Main.store (Main.set now key value c))
        = Some (now, value)
        /\ last (Main.store (Main.set now key value c))
           = Some (key, (now, value)))
  /\ (forall value lru rest,
        Main.store c = lru :: rest ->
        length (Main.store c) = Main.max_size c ->
        OrderedDict.get key (Main.store c) = None ->
        Main.store (Main.set now key value c)
        = rest ++ [(key, (now, value))])
  /\ (forall value,
        (length (Main.store c) < Main.max_size c)%nat
        \/ OrderedDict.get key (Main.store c) <> None ->
        Main.store (Main.set now key value c)
        = OrderedDict.delitem key (Main.store c) ++ [(key, (now, value))]).
Proof.
  intros Hwf Hpos. pose proof Hwf as [Hnd Hlen].
  split; [|split; [|split; [|split]]].
  - intros ts value Hget Hold. split; [|split].
    + unfold Main.get. rewrite Hget.
      apply RateLimiter.Qltb_true in Hold. rewrite Hold. reflexivity.
    + now apply get_delitem_eq.
    + intros k Hk. now apply get_delitem_ne.
  - intros ts value Hget Hfresh.
    unfold Main.get. rewrite Hget.
    apply RateLimiter.Qltb_false in Hfresh. rewrite Hfresh.
    unfold OrderedDict.move_to_end. rewrite Hget. reflexivity.
  - intros value. now apply set_records.
  - intros value lru rest Hstore Hfull Hnew.
    rewrite set_store. cbv zeta.
    rewrite (delitem_absent _ _ Hnew), Hstore.
    rewrite Hstore in Hfull. simpl length in *. rewrite length_app.
    simpl length.
    replace (Main.max_size c <? S (length rest + 1))%nat with true
      by (symmetry; apply Nat.ltb_lt; lia).
    reflexivity.
  - intros value Hroom. rewrite set_store. cbv zeta.
    rewrite length_app. simpl length.
    replace (Main.max_size c
             <? length (OrderedDict.delitem key (Main.store c)) + 1)%nat
      with false; [reflexivity|].
    symmetry. apply Nat.ltb_ge.
    destruct (OrderedDict.get key (Main.store c)) as [x|] eqn:Hget.
    + apply length_delitem_present in Hget. lia.
    + destruct Hroom as [Hroom|Hroom]; [|congruence].
      rewrite delitem_absent by exact Hget. lia.
Qed.

End Cache.

End IntentCache.

(** Every state of [intent_cache] is well formed, with capacity 256 and
    a time to live of 180 seconds. *)
Lemma intent_cache_reached {V : Type} (c : Main.LRUCacheTTL V) :
  Main.reached c ->
  Main.wf c /\ Main.max_size c = 256%nat /\ Main.ttl c = 180.
Proof.
  induction 1 as [|now key c _ (Hwf & Hsize & Httl)
                  |now key value c _ (Hwf & Hsize & Httl)].
  - repeat split; [constructor | simpl; lia].
  - split; [now apply IntentCache.get_wf|].
    unfold Main.get. destruct (OrderedDict.get key (Main.store c)) as [[ts v]|];
      [destruct (Main.Qltb _ _)|]; simpl; auto.
  - split; [now apply IntentCache.set_wf|].
    unfold Main.set. destruct (_ <? _)%nat; simpl; auto.
Qed.

Lemma small_cache_wf : Main.wf small_cache.
Proof.
  unfold small_cache. apply IntentCache.set_wf, IntentCache.set_wf.
  split; [constructor | simpl; lia].
Defined.

Lemma lru_cache_ttl_witness :
  Main.get 181%Q "local:list files" small_cache
  = (Main.with_store small_cache
       (OrderedDict.delitem "local:list files" (Main.store small_cache)),
     None)
  /\ Main.get 100%Q "local:list files" small_cache
     = (Main.with_store small_cache
          (OrderedDict.delitem "local:list files" (Main.store small_cache)
             ++ [("local:list files", (0%Q, 7%nat))]),
        Some 7%nat)
  /\ Main.store (Main.set 2%Q "local:open docs" 9%nat small_cache)
     = [("general:hello", (1%Q, 8%nat))]
         ++ [("local:open docs", (2%Q, 9%nat))].
Proof.
  split; [|split].
  - destruct (IntentCache.lru_cache_ttl small_cache "local:list files" 181%Q
                small_cache_wf) as (Hexpired & _); [simpl; lia|].
    apply (Hexpired 0%Q 7%nat); reflexivity.
  - destruct (IntentCache.lru_cache_ttl small_cache "local:list files" 100%Q
                small_cache_wf) as (_ & Hhit & _); [simpl; lia|].
    apply (Hhit 0%Q 7%nat); [reflexivity | vm_compute; discriminate].
  - destruct (IntentCache.lru_cache_ttl small_cache "local:open docs" 2%Q
                small_cache_wf) as (_ & _ & _ & Hevict & _); [simpl; lia|].
    apply (Hevict 9%nat ("local:list files", (0%Q, 7%nat))
             [("general:hello", (1%Q, 8%nat))]); reflexivity.
Defined.

(** ** Path confinement and deletion *)
Module PathGuard.
Import PyStr Models CommandExecutor.

Section Guard.
Variable expanduser : string -> string.
Variable resolve : string -> Path.
Variable allowed_base_dir : string.

(** What [_normalize_path] returns was resolved and lies in the root. *)
Lemma normalize_return (path : string) (normalized : Path) :
  _normalize_path expanduser resolve allowed_base_dir path = Return normalized ->
  resolve allowed_base_dir `prefix_of` normalized
  /\ exists s, normalized = resolve s.
Proof.
  unfold _normalize_path, is_relative_to.
  match goal with
  | |- context [resolve (expanduser ?p)] => set (path' := p)
  end.
  case_bool_decide as Hin; [|discriminate].
  intros [= <-]. split; [exact Hin | now exists (expanduser path')].
Qed.



Lemma rmtree_outside (p q : Path) (fs : FileSystem) :
  ~ p `prefix_of` q -> rmtree p fs !! q = fs !! q.
Proof.
  intros Hpq. unfold rmtree.
  destruct (fs !! q) as [node|] eqn:Hq.
  - apply map_lookup_filter_Some. split; [exact Hq | exact Hpq].
  - apply map_lookup_filter_None. now left.
Qed.


End Guard.

Import Scenarios.

(** The scenario of a path that climbs out of the home directory, and
    some that stay inside. *)
Example normalize_examples :
  _normalize_path expanduser resolve home "../../etc/passwd"
  = Raise (PermissionError
             "Access denied: ../../etc/passwd is outside allowed directories")
  /\ _normalize_path expanduser resolve home "/home/liax"
     = Raise (PermissionError
                "Access denied: /home/liax is outside allowed directories")
  /\ _normalize_path expanduser resolve home "Downloads"
     = Return ["/"; "home"; "lia"; "Downloads"]
  /\ _normalize_path expanduser resolve home "~/Downloads/../notes.txt"
     = Return ["/"; "home"; "lia"; "notes.txt"]
  /\ _normalize_path expanduser resolve home "home"
     = Return ["/"; "home"; "lia"].
Proof. repeat split; vm_compute; reflexivity. Qed.


End PathGuard.

(** ** More on the Python executor *)
Module PythonExecutorProps.
Import PyStr PyLines Subprocess PythonExecutor PyStrFacts.

Lemma truthy_lstrip (s : string) : truthy (lstrip s) = true -> truthy s = true.
Proof. destruct s; [discriminate | reflexivity]. Qed.

Lemma truthy_rstrip (s : string) : truthy (rstrip s) = true -> truthy s = true.
Proof. destruct s; [discriminate | reflexivity]. Qed.

Lemma truthy_strip (s : string) : truthy (strip s) = true -> truthy s = true.
Proof. intros H. apply truthy_lstrip, truthy_rstrip. exact H. Qed.

(** X1.  [is_safe_code] accepts a script exactly when its lower-cased
    text contains none of the five blocking patterns; the [open(]
    entry never rejects.  A rejection gives the reason of a pattern
    that the lower-cased text contains. *)
Theorem is_safe_code_accepts (code : string) :
  ((is_safe_code code).1 = true <->
   Forall (fun pattern => contains pattern (lower code) = false)
     ["import subprocess"; "import os.system"; "exec("; "eval(";
      "__import__"])
  /\ ((is_safe_code code).1 = false ->
      exists pattern,
        In (pattern, (is_safe_code code).2) dangerous_patterns
        /\ contains pattern (lower code) = true).
Proof.
  unfold is_safe_code. generalize (lower code) as s. intros s.
  cbv [scan dangerous_patterns].
  repeat match goal with
         | |- context [lower ?p] =>
             let t := eval vm_compute in (lower p) in change (lower p) with t
         end.
  repeat match goal with
         | |- context [contains "open(" (String ?a ?p)] =>
             let t := eval vm_compute in (contains "open(" (String a p)) in
             change (contains "open(" (String a p)) with t
         end.
  cbv iota.
  rewrite !Forall_cons, Forall_nil.
  destruct (contains "import subprocess" s) eqn:H1; simpl.
  { split; [split; [discriminate | intros [? _]; discriminate]|].
    intros _. exists "import subprocess". auto. }
  destruct (contains "import os.system" s) eqn:H2; simpl.
  { split; [split; [discriminate | intros (_ & ? & _); discriminate]|].
    intros _. exists "import os.system". auto. }
  destruct (contains "exec(" s) eqn:H3; simpl.
  { split; [split; [discriminate | intros (_ & _ & ? & _); discriminate]|].
    intros _. exists "exec(". auto 6. }
  destruct (contains "eval(" s) eqn:H4; simpl.
  { split; [split; [discriminate | intros (_ & _ & _ & ? & _); discriminate]|].
    intros _. exists "eval(". auto 7. }
  destruct (contains "__import__" s) eqn:H5; simpl.
  { split; [split; [discriminate
                   | intros (_ & _ & _ & _ & ? & _); discriminate]|].
    intros _. exists "__import__". auto 8. }
  destruct (contains "open(" s); simpl; (split; [tauto | discriminate]).
Qed.

Section Runs.
Variable ollama_service : option (string -> option Context -> Reply).
Variable run : Call -> Outcome.
Variable home : string.

(** X2.  [execute_python_code] starts one child, in the home directory
    when no working directory is given.  It reports success exactly
    when the child completed with exit code 0; when the child timed
    out or could not be run, the returned output is empty, success is
    false and the error text says what happened. *)
Theorem execute_python_code_outcome (code : string) :
  let r := execute_python_code run home code None in
  r.1 = [python_call code home]
  /\ (r.2.1.1 = true <->
      exists stdout stderr,
        run (python_call code home) = Completed 0 stdout stderr)
  /\ (run (python_call code home) = TimeoutExpired ->
      r.2 = (false, EmptyString, "Execution timed out after 5 seconds"))
  /\ (forall e, run (python_call code home) = Raised e ->
      r.2 = (false, EmptyString, e)).
Proof.
  unfold execute_python_code.
  destruct (run (python_call code home)) as [rc out err| |e] eqn:Hrun;
    simpl; (split; [reflexivity|]); (split; [|split]);
    try discriminate; try (intros; congruence);
    try (split; [discriminate | intros (o & e' & H); discriminate H]);
    try (intros _; reflexivity).
  split.
  - intros H. apply Z.eqb_eq in H. subst rc. eauto.
  - intros (o & e & [= -> _ _]). reflexivity.
Qed.

(** The code that [generate_python_code] returns is never empty. *)
Lemma generated_code_truthy user_request context :
  truthy (generate_python_code ollama_service user_request context) = true.
Proof.
  assert (Hfb : truthy (_generate_fallback_code user_request) = true).
  { unfold _generate_fallback_code.
    destruct (_ || _); [reflexivity|]. destruct (_ && _); reflexivity. }
  unfold generate_python_code.
  destruct ollama_service as [generate_content|]; [|exact Hfb].
  destruct (generate_content user_request context) as [response|e];
    [|exact Hfb].
  destruct (truthy (strip (_extract_code_from_response response))) eqn:E;
    [|exact Hfb].
  apply truthy_strip. exact E.
Qed.


(** X4.  When the generator is absent or raises, the code is one of the
    three stock scripts, each long enough to be run: a child is always
    started and a failed generation is never reported. *)
Theorem fallback_code_always_runs user_request context :
  (ollama_service = None
   \/ exists generate_content e,
       ollama_service = Some generate_content
       /\ generate_content user_request context = Failure e) ->
  let code := generate_python_code ollama_service user_request context in
  In code [fallback_average; fallback_list_files; fallback_default]
  /\ (execute_with_python ollama_service run home user_request context).1
     = [python_call code home].
Proof.
  intros Hservice code.
  assert (Hcode : code = _generate_fallback_code user_request).
  { subst code. unfold generate_python_code.
    destruct Hservice as [->|(g & e & -> & ->)]; reflexivity. }
  assert (Hin : In code
                  [fallback_average; fallback_list_files; fallback_default]).
  { rewrite Hcode. unfold _generate_fallback_code.
    destruct (_ || _); [simpl; auto|]. destruct (_ && _); simpl; auto. }
  split; [exact Hin|].
  apply PythonExecutorFacts.with_python_runs_generated.
  - apply generated_code_truthy.
  - fold code. destruct Hin as [<-|[<-|[<-|[]]]]; vm_compute; discriminate.
Qed.

End Runs.

End PythonExecutorProps.

(** ** More on the string primitives *)
Module PyStrProps.
Import PyStr.

Lemma lower_char_idem (c : ascii) : lower_char (lower_char c) = lower_char c.
Proof. destruct c as [[] [] [] [] [] [] [] []]; reflexivity. Qed.

Lemma lower_idem (s : string) : lower (lower s) = lower s.
Proof.
  induction s as [|c s IH]; simpl; [reflexivity|].
  now rewrite lower_char_idem, IH.
Qed.

(** What begins a lower-cased text is itself in lower case. *)
Lemma startswith_lower (p s : string) :
  startswith p (lower s) = true -> lower p = p.
Proof.
  revert s. induction p as [|a p IH]; intros [|b s]; simpl;
    try reflexivity; try discriminate.
  intros H. apply andb_true_iff in H as [Hab Hrest].
  apply Ascii.eqb_eq in Hab. subst a.
  now rewrite lower_char_idem, (IH s Hrest).
Qed.

(** So is what occurs in it. *)
Lemma contains_lower (p s : string) :
  contains p (lower s) = true -> lower p = p.
Proof.
  induction s as [|b s IH]; simpl.
  - rewrite orb_false_r. apply (startswith_lower p EmptyString).
  - intros H. apply orb_true_iff in H as [H|H]; [|now apply IH].
    apply (startswith_lower p (String b s)). exact H.
Qed.





End PyStrProps.

(** ** More on the command executor *)
Module CommandExecutorProps.
Import PyStr PyLines Subprocess Models CommandExecutor PyStrFacts PyStrProps.

Section Commands.
Variable expanduser : string -> string.
Variable run : Call -> Outcome.


(** X6.  [_execute_command] reports success exactly when it started a
    child and the child completed with exit code 0.  When the child
    timed out, the result is a failure that carries no output. *)
Theorem execute_command_success (params : gmap string string) :
  (success (_execute_command expanduser run params).2 = true <->
   exists call stdout stderr,
     (_execute_command expanduser run params).1 = [call]
     /\ run call = Completed 0 stdout stderr)
  /\ (forall call,
        (_execute_command expanduser run params).1 = [call] ->
        run call = TimeoutExpired ->
        (_execute_command expanduser run params).2
        = result false ("⏰ Command timed out: " +:+ command_of params)
            EXECUTE_COMMAND).
Proof.
  unfold _execute_command.
  destruct (split (command_of params)) as [|base_command rest].
  { simpl. split; [|discriminate].
    split; [discriminate | intros (c & o & e & H & _); discriminate H]. }
  destruct (mem base_command safe_commands); simpl negb; cbv iota.
  2: { simpl. split; [|discriminate].
       split; [discriminate | intros (c & o & e & H & _); discriminate H]. }
  destruct (List.find _ dangerous_patterns).
  { simpl. split; [|discriminate].
    split; [discriminate | intros (c & o & e & H & _); discriminate H]. }
  match goal with
  | |- context [run ?c] => set (the_call := c) in *
  end.
  destruct (run the_call) as [rc out err| |e] eqn:Hrun; simpl.
  - split.
    + split.
      * intros H. apply Z.eqb_eq in H. subst rc. eauto.
      * intros (c & o & e & [= <-] & Hc). rewrite Hrun in Hc.
        injection Hc as ->. reflexivity.
    + intros c [= <-] Hc. congruence.
  - split.
    + split; [discriminate|].
      intros (c & o & e & [= <-] & Hc). congruence.
    + intros c _ _. reflexivity.
  - split.
    + split; [discriminate|].
      intros (c & o & e' & [= <-] & Hc). congruence.
    + intros c [= <-] Hc. congruence.
Qed.


End Commands.

(** X8.  The deny-list is matched against the lower-cased command, so
    a pattern that is not itself in lower case matches no command at
    all.  Eight patterns of the deny-list are of this kind. *)
Theorem capital_patterns_are_dead :
  (forall pattern command,
      lower pattern <> pattern ->
      contains pattern (lower command) = false)
  /\ List.filter (fun pattern => negb (String.eqb (lower pattern) pattern))
       dangerous_patterns
     = [ "php -S"; "perl -MIO::Socket"; "kill -STOP"; "kill -CONT";
         "pacman -R"; "export PATH="; "export LD_LIBRARY_PATH=";
         "export PYTHONPATH=" ].
Proof.
  split.
  - intros pattern command Hne.
    destruct (contains pattern (lower command)) eqn:E; [|reflexivity].
    apply contains_lower in E. contradiction.
  - vm_compute. reflexivity.
Qed.

Section Paths.
Variable expanduser : string -> string.
Variable resolve : string -> Path.
Variable allowed_base_dir : string.

(** X9.  Whatever its parameters, [_delete_file] leaves every path
    outside the allowed root as it was. *)
Theorem delete_file_confined (params : gmap string string)
    (fs : FileSystem) (q : Path) :
  ~ resolve allowed_base_dir `prefix_of` q ->
  (_delete_file expanduser resolve allowed_base_dir params fs).1 !! q
  = fs !! q.
Proof.
  intros Hout. unfold _delete_file.
  destruct (params !! "path") as [path|]; [|reflexivity].
  destruct (truthy path); simpl negb; cbv iota; [|reflexivity].
  destruct (_normalize_path expanduser resolve allowed_base_dir path)
    as [normalized|e] eqn:Hnorm; [|reflexivity].
  apply PathGuard.normalize_return in Hnorm as [Hin _].
  assert (Hnq : ~ normalized `prefix_of` q).
  { intros Hnq. apply Hout. etransitivity; eassumption. }
  destruct (fs !! normalized) as [[| |]|]; simpl; try reflexivity.
  - unfold unlink. apply lookup_delete_ne. intros ->. now apply Hnq.
  - now apply PathGuard.rmtree_outside.
Qed.


End Paths.

End CommandExecutorProps.

(** ** More on the rate limiter *)
Module RateLimiterProps.
Import Main RateLimiter.

Local Open Scope Q_scope.

(** In a bucket kept in order, the pruning keeps exactly the readings
    that are not older than the window. *)
Lemma drop_old_sorted window_start dq :
  StronglySorted Qle dq ->
  drop_old window_start dq
  = List.filter (fun t => negb (Qltb t window_start)) dq.
Proof.
  induction 1 as [|t0 rest Hsorted IH Hle]; [reflexivity|].
  simpl. destruct (Qltb t0 window_start) eqn:E; simpl; [exact IH|].
  f_equal. apply Qltb_false in E.
  clear IH Hsorted. induction Hle as [|t rest' Ht _ IH']; [reflexivity|].
  simpl. replace (Qltb t window_start) with false; [simpl; now f_equal|].
  symmetry. apply Qltb_false. now apply Qle_trans with t0.
Qed.

Lemma filter_sorted (f : Q -> bool) dq :
  StronglySorted Qle dq -> StronglySorted Qle (List.filter f dq).
Proof.
  induction 1 as [|t0 rest Hsorted IH Hle]; simpl; [constructor|].
  destruct (f t0); [|exact IH].
  constructor; [exact IH|].
  clear -Hle. induction Hle as [|t rest' Ht _ IH']; simpl; [constructor|].
  destruct (f t); [constructor; assumption | assumption].
Qed.

Lemma filter_Forall (f : Q -> bool) (P : Q -> Prop) dq :
  Forall P dq -> Forall (fun t => f t = true /\ P t) (List.filter f dq).
Proof.
  induction 1 as [|t rest Ht _ IH]; simpl; [constructor|].
  destruct (f t) eqn:E; [constructor; auto | exact IH].
Qed.

(** X11.  A request of one client leaves the buckets of all other
    clients as they were. *)
Theorem allow_request_other_clients now client_id other
    (buckets : gmap string (list Q)) :
  other <> client_id ->
  (_allow_request now client_id buckets).1 !! other = buckets !! other.
Proof.
  intros Hne. unfold _allow_request.
  destruct (_ <=? _)%nat; simpl; apply lookup_insert_ne; congruence.
Qed.

(** X12.  With a clock that does not run backwards, the check is a
    sliding window: the request is admitted exactly when fewer than
    [RATE_LIMIT_MAX_REQUESTS] earlier readings of the client lie within
    the last [RATE_LIMIT_WINDOW_SEC] seconds; afterwards the bucket
    holds exactly those readings, followed by this one when admitted,
    still in order and all within the window. *)
Theorem sliding_window now client_id (buckets : gmap string (list Q)) :
  StronglySorted Qle (default [] (buckets !! client_id)) ->
  Forall (fun t => t <= now) (default [] (buckets !! client_id)) ->
  exists dq,
    (_allow_request now client_id buckets).1 !! client_id = Some dq
    /\ (_allow_request now client_id buckets).2
       = (length
            (List.filter
               (fun t => negb (Qltb t (now - RATE_LIMIT_WINDOW_SEC)))
               (default [] (buckets !! client_id)))
          <? RATE_LIMIT_MAX_REQUESTS)%nat
    /\ dq = List.filter
              (fun t => negb (Qltb t (now - RATE_LIMIT_WINDOW_SEC)))
              (default [] (buckets !! client_id))
            ++ (if (_allow_request now client_id buckets).2 then [now]
                else [])
    /\ StronglySorted Qle dq
    /\ Forall (fun t => now - RATE_LIMIT_WINDOW_SEC <= t /\ t <= now) dq.
Proof.
  intros Hsorted Hpast. unfold _allow_request.
  rewrite (drop_old_sorted _ _ Hsorted).
  set (kept := List.filter _ (default [] (buckets !! client_id))).
  assert (Hkept : Forall (fun t => now - RATE_LIMIT_WINDOW_SEC <= t /\ t <= now)
                         kept).
  { subst kept. eapply Forall_impl; [apply filter_Forall, Hpast|].
    intros t [Hin Hle]. simpl in Hin. apply negb_true_iff, Qltb_false in Hin.
    split; assumption. }
  assert (Hks : StronglySorted Qle kept) by (now apply filter_sorted).
  destruct (RATE_LIMIT_MAX_REQUESTS <=? length kept)%nat eqn:E; simpl.
  - exists kept. rewrite lookup_insert_eq, app_nil_r.
    apply Nat.leb_le in E.
    repeat split; try assumption.
    symmetry. apply Nat.ltb_ge. exact E.
  - exists (kept ++ [now]). rewrite lookup_insert_eq.
    apply Nat.leb_gt in E.
    repeat split.
    + symmetry. apply Nat.ltb_lt. exact E.
    + apply StronglySorted_app_2; [|exact Hks|repeat constructor].
      intros t1 t2 H1 H2. apply list_elem_of_singleton in H2. subst t2.
      rewrite Forall_forall in Hkept. now apply Hkept.
    + apply Forall_app. split; [exact Hkept|].
      constructor; [|constructor].
      unfold RATE_LIMIT_WINDOW_SEC. split; [|apply Qle_refl].
      unfold Qle, Qminus, Qplus. simpl. lia.
Qed.

(** X13.  Refusals are not counted: in a table whose buckets respect
    the maximum, a client whose oldest reading has left the window is
    admitted, however many requests were refused in between. *)
Theorem admitted_once_oldest_leaves now client_id t0 rest
    (buckets : gmap string (list Q)) :
  bounded buckets ->
  buckets !! client_id = Some (t0 :: rest) ->
  t0 < now - RATE_LIMIT_WINDOW_SEC ->
  (_allow_request now client_id buckets).2 = true.
Proof.
  intros Hb Hbucket Hold. unfold _allow_request. rewrite Hbucket.
  simpl default. simpl drop_old.
  apply Qltb_true in Hold. rewrite Hold.
  pose proof (drop_old_length (now - RATE_LIMIT_WINDOW_SEC) rest) as Hlen.
  pose proof (Hb _ _ Hbucket) as Hmax. simpl in Hmax.
  destruct (RATE_LIMIT_MAX_REQUESTS <=? _)%nat eqn:E; [|reflexivity].
  apply Nat.leb_le in E. lia.
Qed.

(** A refused request changes nothing but the pruning: the reading of
    the refused request is not stored. *)
Lemma refused_not_stored now client_id (buckets : gmap string (list Q)) :
  (_allow_request now client_id buckets).2 = false ->
  (_allow_request now client_id buckets).1 !! client_id
  = Some (drop_old (now - RATE_LIMIT_WINDOW_SEC)
            (default [] (buckets !! client_id))).
Proof.
  unfold _allow_request. destruct (_ <=? _)%nat; simpl; [|discriminate].
  intros _. apply lookup_insert_eq.
Qed.

End RateLimiterProps.

(** ** More on the intent cache *)
Module IntentCacheProps.
Import OrderedDictFacts.

Local Open Scope Q_scope.

Section Cache.
Context {V : Type}.
Implicit Types (c : Main.LRUCacheTTL V) (key : string) (value : V) (now ts : Q).

Lemma with_store_same c : Main.with_store c (Main.store c) = c.
Proof. destruct c. reflexivity. Qed.

(** Removing the last entry's key from a dictionary with distinct keys
    removes the last entry. *)
Lemma delitem_last key (x : Q * V) (d : OrderedDict.t (Q * V)) :
  key ∉ OrderedDict.keys d ->
  OrderedDict.delitem key (d ++ [(key, x)]) = d.
Proof.
  induction d as [|[k y] rest IH]; simpl.
  - intros _. now rewrite String.eqb_refl.
  - rewrite not_elem_of_cons. intros [Hne Hrest].
    destruct (String.eqb_spec k key); [congruence|]. now rewrite IH.
Qed.

Lemma get_app_other key k (x : Q * V) (d : OrderedDict.t (Q * V)) :
  k <> key ->
  OrderedDict.get k (d ++ [(key, x)]) = OrderedDict.get k d.
Proof.
  intros Hne. induction d as [|[k' y] rest IH]; simpl.
  - destruct (String.eqb_spec key k); [congruence | reflexivity].
  - now rewrite IH.
Qed.

(** A lookup soon enough after [set] hits and changes nothing. *)
Lemma get_set_hit now later key value c :
  Main.wf c -> (0 < Main.max_size c)%nat ->
  later - now <= inject_Z (Main.ttl c) ->
  Main.get later key (Main.set now key value c)
  = (Main.set now key value c, Some value).
Proof.
  intros Hwf Hpos Hfresh. pose proof Hwf as [Hnd Hlen].
  destruct (IntentCache.set_records now key value c Hwf Hpos) as [Hget _].
  assert (Hstore : exists d,
             Main.store (Main.set now key value c) = d ++ [(key, (now, value))]
             /\ key ∉ OrderedDict.keys d).
  { rewrite IntentCache.set_store. cbv zeta.
    destruct (NoDup_delitem key _ Hnd) as [_ Hnot].
    destruct (_ <? _)%nat eqn:E; [|eauto].
    apply Nat.ltb_lt in E. rewrite length_app in E. simpl in E.
    destruct (OrderedDict.delitem key (Main.store c)) as [|e r];
      [simpl in E; lia|].
    apply not_elem_of_cons in Hnot as [_ Hnot]. simpl. eauto. }
  destruct Hstore as (d & Hd & Hnot).
  unfold Main.get. rewrite Hget.
  assert (Httl : Main.ttl (Main.set now key value c) = Main.ttl c).
  { unfold Main.set. destruct (_ <? _)%nat; reflexivity. }
  rewrite Httl. apply RateLimiter.Qltb_false in Hfresh. rewrite Hfresh.
  unfold OrderedDict.move_to_end. rewrite Hget, Hd.
  rewrite (delitem_last _ _ _ Hnot), <- Hd. now rewrite with_store_same.
Qed.

(** X14.  What [set] stores, [get] returns, for [ttl] seconds: in a
    cache of capacity at least one, a lookup of the key at most [ttl]
    seconds after [set] returns the value that was set and leaves the
    cache as it is; a lookup later than that returns nothing and
    removes the key. *)
Theorem get_after_set now later key value c :
  Main.wf c -> (0 < Main.max_size c)%nat ->
  (later - now <= inject_Z (Main.ttl c) ->
   Main.get later key (Main.set now key value c)
   = (Main.set now key value c, Some value))
  /\ (inject_Z (Main.ttl c) < later - now ->
      (Main.get later key (Main.set now key value c)).2 = None
      /\ OrderedDict.get key
           (Main.store (Main.get later key (Main.set now key value c)).1)
         = None).
Proof.
  intros Hwf Hpos. split; [now apply get_set_hit|].
  intros Hold.
  destruct (IntentCache.set_records now key value c Hwf Hpos) as [Hget _].
  destruct (IntentCache.set_wf now key value c Hwf) as [Hnd _].
  assert (Httl : Main.ttl (Main.set now key value c) = Main.ttl c).
  { unfold Main.set. destruct (_ <? _)%nat; reflexivity. }
  unfold Main.get. rewrite Hget, Httl.
  apply RateLimiter.Qltb_true in Hold. rewrite Hold. simpl.
  split; [reflexivity|]. now apply get_delitem_eq.
Qed.

Lemma get_settings now key c :
  Main.max_size (Main.get now key c).1 = Main.max_size c
  /\ Main.ttl (Main.get now key c).1 = Main.ttl c.
Proof.
  unfold Main.get.
  destruct (OrderedDict.get key (Main.store c)) as [[ts v]|];
    [destruct (Main.Qltb _ _)|]; split; reflexivity.
Qed.

(** X15.  A lookup of one key changes the value of no other key,
    whether it hits, misses or finds the entry expired. *)
Theorem get_other_keys now key k c :
  k <> key ->
  OrderedDict.get k (Main.store (Main.get now key c).1)
  = OrderedDict.get k (Main.store c).
Proof.
  intros Hne. unfold Main.get.
  destruct (OrderedDict.get key (Main.store c)) as [[ts value]|] eqn:Hget;
    [|reflexivity].
  destruct (Main.Qltb _ _); simpl.
  - now apply get_delitem_ne.
  - unfold OrderedDict.move_to_end. rewrite Hget.
    rewrite get_app_other by exact Hne. now apply get_delitem_ne.
Qed.

(** X16.  [set] on a key changes no other key as long as nothing is
    evicted, that is, when the key is already present or the cache is
    not full. *)
Theorem set_other_keys now key value k c :
  Main.wf c ->
  k <> key ->
  (length (Main.store c) < Main.max_size c)%nat
  \/ OrderedDict.get key (Main.store c) <> None ->
  OrderedDict.get k (Main.store (Main.set now key value c))
  = OrderedDict.get k (Main.store c).
Proof.
  intros [Hnd Hlen] Hne Hroom. rewrite IntentCache.set_store. cbv zeta.
  rewrite length_app. simpl length.
  replace (Main.max_size c
           <? length (OrderedDict.delitem key (Main.store c)) + 1)%nat
    with false.
  - rewrite get_app_other by exact Hne. now apply get_delitem_ne.
  - symmetry. apply Nat.ltb_ge.
    destruct (OrderedDict.get key (Main.store c)) as [x|] eqn:Hget.
    + apply length_delitem_present in Hget. lia.
    + destruct Hroom as [Hroom|Hroom]; [|congruence].
      rewrite delitem_absent by exact Hget. lia.
Qed.

End Cache.

End IntentCacheProps.

(** ** The handlers that open, rename and create *)
Module FileHandlersProps.
Import PyStr PyLines Models CommandExecutor FileHandlers.

Section Handlers.
Variable expanduser : string -> string.
Variable resolve : string -> Path.
Variable allowed_base_dir : string.
Variable system : string.
Variable perform : Effect -> string + string.
Variable st_size : Path -> Z.

(** X17.  [_open_folder] asks for at most one thing: to start one of
    the three file managers on one argument, the text of a path that
    lies within the allowed root and is an existing directory. *)
Theorem open_folder_confined (params : gmap string string) (fs : FileSystem)
    (effect : Effect) :
  In effect
     (_open_folder expanduser resolve allowed_base_dir system perform
        params fs).1 ->
  exists program normalized_path,
    effect = Popen [program; path_str normalized_path]
    /\ In program ["xdg-open"; "open"; "explorer"]
    /\ resolve allowed_base_dir `prefix_of` normalized_path
    /\ fs !! normalized_path = Some Directory
    /\ (_open_folder expanduser resolve allowed_base_dir system perform
          params fs).1 = [effect].
Proof.
  unfold _open_folder.
  destruct (_normalize_path _ _ _ _) as [p|e] eqn:Hnorm; [|intros []].
  apply PathGuard.normalize_return in Hnorm as [Hin _].
  destruct (fs !! p) as [[| |]|] eqn:Hfs; try (intros []).
  match goal with
  | |- context [match ?o with Some _ => _ | None => _ end] =>
      set (opener := o)
  end.
  assert (Hopener : forall program,
             opener = Some program ->
             In program ["xdg-open"; "open"; "explorer"]).
  { subst opener. intros program.
    repeat (destruct (String.eqb system _);
            [intros [= <-]; simpl; auto|]).
    discriminate. }
  destruct opener as [program|]; [|intros []].
  specialize (Hopener program eq_refl).
  destruct (perform _); simpl; intros [<-|[]]; exists program, p;
    repeat split; auto.
Qed.

(** X18.  [_open_file] asks for at most one thing: to open, with the
    opener of the platform, the text of a path that lies within the
    allowed root and is an existing regular file. *)
Theorem open_file_confined (params : gmap string string) (fs : FileSystem)
    (effect : Effect) :
  In effect
     (_open_file expanduser resolve allowed_base_dir system perform
        params fs).1 ->
  exists normalized_path,
    In effect [ Popen ["xdg-open"; path_str normalized_path];
                Popen ["open"; path_str normalized_path];
                StartFile (path_str normalized_path) ]
    /\ resolve allowed_base_dir `prefix_of` normalized_path
    /\ fs !! normalized_path = Some RegularFile
    /\ (_open_file expanduser resolve allowed_base_dir system perform
          params fs).1 = [effect].
Proof.
  unfold _open_file.
  destruct (params !! "path") as [path|]; [|intros []].
  destruct (truthy path); simpl negb; cbv iota; [|intros []].
  destruct (_normalize_path _ _ _ _) as [p|e] eqn:Hnorm; [|intros []].
  apply PathGuard.normalize_return in Hnorm as [Hin _].
  destruct (fs !! p) as [[| |]|] eqn:Hfs; try (intros []).
  match goal with
  | |- context [match ?o with Some _ => _ | None => _ end] =>
      set (opener := o)
  end.
  assert (Hopener : forall how,
             opener = Some how ->
             In how [ Popen ["xdg-open"; path_str p];
                      Popen ["open"; path_str p];
                      StartFile (path_str p) ]).
  { subst opener. intros how.
    repeat (destruct (String.eqb system _);
            [intros [= <-]; simpl; auto|]).
    discriminate. }
  destruct opener as [how|]; [|intros []].
  specialize (Hopener how eq_refl).
  destruct (perform _); simpl; intros [<-|[]]; exists p;
    repeat split; auto.
Qed.

(** X19.  [_rename_file] checks the source against the allowed root
    but not the destination: it asks for at most one renaming, of a
    source that exists within the root, to the new name joined to the
    parent of the source; a new name that begins with a slash is taken
    as the destination as it stands, wherever that is. *)
Theorem rename_destination_unchecked (params : gmap string string)
    (fs : FileSystem) (effect : Effect) :
  In effect
     (_rename_file expanduser resolve allowed_base_dir perform params fs).1 ->
  exists source_path new_name,
    params !! "new_name" = Some new_name
    /\ effect
       = Rename source_path (joinpath (parent source_path) new_name)
    /\ resolve allowed_base_dir `prefix_of` source_path
    /\ is_Some (fs !! source_path)
    /\ (startswith "/" new_name = true ->
        joinpath (parent source_path) new_name = path_of new_name).
Proof.
  unfold _rename_file.
  destruct (params !! "new_name") as [new_name|] eqn:Hnew; simpl default.
  2: { rewrite orb_true_r. intros []. }
  destruct (negb (truthy (default EmptyString (params !! "path")))
            || negb (truthy new_name)); [intros []|].
  destruct (_normalize_path _ _ _ _) as [p|e] eqn:Hnorm; [|intros []].
  apply PathGuard.normalize_return in Hnorm as [Hin _].
  destruct (fs !! p) as [node|] eqn:Hfs; [|intros []].
  destruct (perform _); intros [<-|[]]; exists p, new_name.
  all: split; [reflexivity|]; split; [reflexivity|]; split; [exact Hin|].
  all: split; [rewrite Hfs; eauto|].
  all: intros Hroot; unfold joinpath, root_of; rewrite Hroot.
  all: destruct (startswith "//" new_name
                 && negb (startswith "///" new_name)); reflexivity.
Qed.

Lemma write_and_report_log done file_path content_to_write :
  (write_and_report perform st_size done file_path content_to_write).1
  = done ++ [WriteText file_path content_to_write].
Proof. unfold write_and_report. destruct (perform _); reflexivity. Qed.

(** What [choose_and_write] adds to the effects: a request to the
    generator when the content is a request, then at most one writing,
    of the text that the content decides. *)
Lemma choose_and_write_log done file_path filename content :
  exists added,
    (choose_and_write perform st_size done file_path filename content).1
    = done ++ added
    /\ forall p written,
        In (WriteText p written) added ->
        p = file_path
        /\ (if truthy content
               && existsb (fun keyword => contains keyword (lower content))
                          generation_keywords
            then perform (Generate (creation_prompt content) 3000)
                 = inl written
            else if truthy content then written = content
            else written = default_content filename).
Proof.
  unfold choose_and_write.
  destruct (truthy content
            && existsb (fun keyword => contains keyword (lower content))
                       generation_keywords).
  - destruct (perform (Generate (creation_prompt content) 3000))
      as [generated|e] eqn:Hgen.
    + exists [Generate (creation_prompt content) 3000;
              WriteText file_path generated].
      rewrite write_and_report_log, <- app_assoc. split; [reflexivity|].
      intros p written [H|[H|[]]]; [discriminate H|].
      injection H as <- <-. auto.
    + exists [Generate (creation_prompt content) 3000].
      split; [reflexivity|]. intros p written [H|[]]. discriminate H.
  - destruct (truthy content).
    + exists [WriteText file_path content].
      rewrite write_and_report_log. split; [reflexivity|].
      intros p written [H|[]]. injection H as <- <-. auto.
    + exists [WriteText file_path (default_content filename)].
      rewrite write_and_report_log. split; [reflexivity|].
      intros p written [H|[]]. injection H as <- <-. auto.
Qed.

(** X20.  Where [_create_file] writes: a file name without separator
    goes below [Documents] in the home directory, whatever the allowed
    root is; a file name with a separator goes through
    [_normalize_path], so the file lies within the allowed root. *)
Theorem create_file_target (params : gmap string string) (p : Path)
    (written : string) :
  In (WriteText p written)
     (_create_file expanduser resolve allowed_base_dir perform st_size
        params).1 ->
  let filename := default "newfile.txt" (params !! "filename") in
  (contains "/" filename = false /\ contains backslash filename = false
   /\ p = joinpath (joinpath (path_of (expanduser "~")) "Documents") filename)
  \/ ((contains "/" filename = true \/ contains backslash filename = true)
      /\ resolve allowed_base_dir `prefix_of` p).
Proof.
  unfold _create_file.
  set (filename := default "newfile.txt" (params !! "filename")).
  set (content := default EmptyString (params !! "content")).
  destruct (contains "/" filename) eqn:Hslash;
    destruct (contains backslash filename) eqn:Hback; simpl negb; simpl andb;
    cbv iota.
  4: { destruct (perform (Mkdir _)) as [ok|e]; simpl.
       - match goal with
         | |- context [choose_and_write _ _ ?d ?f _ _] =>
             destruct (choose_and_write_log d f filename content)
               as (added & -> & Hadded)
         end.
         intros [H|H]%in_app_or; [destruct H as [H|[]]; discriminate H|].
         apply Hadded in H as [-> _]. left. auto.
       - intros [H|[]]. discriminate H. }
  all: destruct (_normalize_path _ _ _ _) as [q|e] eqn:Hnorm; [|intros []];
    apply PathGuard.normalize_return in Hnorm as [Hin _];
    destruct (choose_and_write_log [] q filename content)
      as (added & -> & Hadded);
    simpl; intros H; apply Hadded in H as [-> _]; right; auto.
Qed.

(** X21.  What [_create_file] writes: the content given, unchanged,
    when it is not empty and its lower-cased text contains none of the
    generation keywords; the answer of the generator to the creation
    prompt when it contains one; the default text naming the file when
    no content is given. *)
Theorem create_file_content (params : gmap string string) (p : Path)
    (written : string) :
  In (WriteText p written)
     (_create_file expanduser resolve allowed_base_dir perform st_size
        params).1 ->
  let filename := default "newfile.txt" (params !! "filename") in
  let content := default EmptyString (params !! "content") in
  if truthy content
     && existsb (fun keyword => contains keyword (lower content))
                generation_keywords
  then perform (Generate (creation_prompt content) 3000) = inl written
  else if truthy content then written = content
  else written = default_content filename.
Proof.
  unfold _create_file.
  set (filename := default "newfile.txt" (params !! "filename")).
  set (content := default EmptyString (params !! "content")).
  destruct (negb (contains "/" filename)
            && negb (contains backslash filename)).
  - destruct (perform (Mkdir _)) as [ok|e]; simpl.
    + match goal with
      | |- context [choose_and_write _ _ ?d ?f _ _] =>
          destruct (choose_and_write_log d f filename content)
            as (added & -> & Hadded)
      end.
      intros [H|H]%in_app_or; [destruct H as [H|[]]; discriminate H|].
      now apply Hadded in H as [_ H].
    + intros [H|[]]. discriminate H.
  - destruct (_normalize_path _ _ _ _) as [q|e]; [|intros []].
    destruct (choose_and_write_log [] q filename content)
      as (added & -> & Hadded).
    simpl. intros H. now apply Hadded in H as [_ H].
Qed.

(** X28.  [_write_file] and [_read_file] touch one path at most, and
    that path lies within the allowed root.  [_write_file] writes the
    given content unchanged and does not ask whether the file exists;
    [_read_file] reads only a path that exists. *)
Theorem read_write_confined (params : gmap string string) (fs : FileSystem)
    (effect : Effect) :
  (In effect
      (_write_file expanduser resolve allowed_base_dir perform st_size
         params).1 ->
   exists file_path,
     effect = WriteText file_path (default EmptyString (params !! "content"))
     /\ resolve allowed_base_dir `prefix_of` file_path
     /\ (_write_file expanduser resolve allowed_base_dir perform st_size
           params).1 = [effect])
  /\ (In effect
        (_read_file expanduser resolve allowed_base_dir perform params fs).1 ->
      exists file_path,
        effect = ReadText file_path
        /\ resolve allowed_base_dir `prefix_of` file_path
        /\ is_Some (fs !! file_path)
        /\ (_read_file expanduser resolve allowed_base_dir perform params
              fs).1 = [effect]).
Proof.
  split.
  - unfold _write_file.
    destruct (params !! "path") as [path|]; [|intros []].
    destruct (truthy path); simpl negb; cbv iota; [|intros []].
    destruct (_normalize_path _ _ _ _) as [p|e] eqn:Hnorm; [|intros []].
    apply PathGuard.normalize_return in Hnorm as [Hin _].
    destruct (perform _); intros [<-|[]]; exists p; auto.
  - unfold _read_file.
    destruct (params !! "path") as [path|]; [|intros []].
    destruct (truthy path); simpl negb; cbv iota; [|intros []].
    destruct (_normalize_path _ _ _ _) as [p|e] eqn:Hnorm; [|intros []].
    apply PathGuard.normalize_return in Hnorm as [Hin _].
    destruct (fs !! p) as [node|] eqn:Hfs; [|intros []].
    destruct (perform _); intros [<-|[]]; exists p;
      (split; [reflexivity|]); (split; [exact Hin|]);
      (split; [rewrite Hfs; eauto | reflexivity]).
Qed.

(** X29.  [_copy_file] and [_move_file] check both ends: the one copy
    or move they ask for has an existing source within the allowed
    root and a destination within the allowed root.  A regular file is
    copied with [copy2], anything else with [copytree]. *)
Theorem copy_move_confined (params : gmap string string) (fs : FileSystem)
    (effect : Effect) :
  (In effect
      (_copy_file expanduser resolve allowed_base_dir perform params fs).1 ->
   exists source_path dest_path,
     effect = match fs !! source_path with
              | Some RegularFile => Copy2 source_path dest_path
              | _ => CopyTree source_path dest_path
              end
     /\ resolve allowed_base_dir `prefix_of` source_path
     /\ resolve allowed_base_dir `prefix_of` dest_path
     /\ is_Some (fs !! source_path))
  /\ (In effect
        (_move_file expanduser resolve allowed_base_dir perform params fs).1 ->
      exists source_path dest_path,
        effect = Move (path_str source_path) (path_str dest_path)
        /\ resolve allowed_base_dir `prefix_of` source_path
        /\ resolve allowed_base_dir `prefix_of` dest_path
        /\ is_Some (fs !! source_path)).
Proof.
  split.
  - unfold _copy_file.
    destruct (negb (truthy (default EmptyString (params !! "source")))
              || negb (truthy (default EmptyString (params !! "destination"))));
      [intros []|].
    destruct (_normalize_path _ _ _ (default EmptyString (params !! "source")))
      as [p|e] eqn:Hp; [|intros []].
    destruct (_normalize_path _ _ _
                (default EmptyString (params !! "destination")))
      as [q|e] eqn:Hq; [|intros []].
    apply PathGuard.normalize_return in Hp as [Hp _].
    apply PathGuard.normalize_return in Hq as [Hq _].
    destruct (fs !! p) as [node|] eqn:Hfs; [|intros []].
    destruct (perform _); intros [<-|[]]; exists p, q;
      (split; [|split; [exact Hp|split; [exact Hq|rewrite Hfs; eauto]]]);
      rewrite Hfs; destruct node; reflexivity.
  - unfold _move_file.
    destruct (negb (truthy (default EmptyString (params !! "source")))
              || negb (truthy (default EmptyString (params !! "destination"))));
      [intros []|].
    destruct (_normalize_path _ _ _ (default EmptyString (params !! "source")))
      as [p|e] eqn:Hp; [|intros []].
    destruct (_normalize_path _ _ _
                (default EmptyString (params !! "destination")))
      as [q|e] eqn:Hq; [|intros []].
    apply PathGuard.normalize_return in Hp as [Hp _].
    apply PathGuard.normalize_return in Hq as [Hq _].
    destruct (fs !! p) as [node|] eqn:Hfs; [|intros []].
    destruct (perform _); intros [<-|[]]; exists p, q;
      (split; [reflexivity|split; [exact Hp|split; [exact Hq|]]]);
      rewrite Hfs; eauto.
Qed.

End Handlers.

End FileHandlersProps.

(** ** The keyword parser *)
Module OllamaServiceProps.
Import PyStr Models CommandExecutor OllamaService.

(** X22.  The keyword parser keeps the message and only ever answers
    with one of ten command types; it never asks for a shell command,
    nor for reading, writing, moving, searching or information. *)
Theorem fallback_parse_kinds (message : string) :
  original_message (_fallback_parse message) = message
  /\ In (intent_command_type (_fallback_parse message))
        [ HELP; CHAT; OPEN_FILE; OPEN_FOLDER; LIST_FILES; DELETE_FILE;
          COPY_FILE; RENAME_FILE; CREATE_FILE; UNKNOWN ]
  /\ ~ In (intent_command_type (_fallback_parse message))
          [ EXECUTE_COMMAND; READ_FILE; WRITE_FILE; MOVE_FILE;
            SEARCH_FILES; GET_INFO ].
Proof.
  unfold _fallback_parse.
  repeat match goal with
         | |- context [if ?b then _ else _] =>
             lazymatch b with
             | context [if _ then _ else _] => fail
             | _ => destruct b
             end
         end;
    (split; [reflexivity|]); (split; [simpl; tauto|]);
    simpl; intros H; decompose [or] H; try discriminate; assumption.
Qed.


End OllamaServiceProps.

(** ** The chat endpoint *)
Module ChatFlowProps.
Import PyStr Models CommandExecutor ChatFlow.

Local Open Scope Q_scope.

Section Flow.
Variable ollama_parse : string -> CommandIntent.
Variable openrouter_parse : string -> CommandIntent.
Variable execute : string -> CommandIntent -> CommandResult + string.
Variable http_exception_str : Z -> string -> string.

(** X24.  A request that is the same as an earlier one, up to
    whitespace around the message, and that comes at most [ttl]
    seconds after the earlier one was stored, is answered from the
    cache: the parser is called for the first request only, and the
    second gets the intent of the first. *)
Theorem repeated_request_uses_cache (t1 t2 t3 t4 : Q)
    (mode message message' : string)
    (cache : Main.LRUCacheTTL CommandIntent) :
  Main.wf cache -> (0 < Main.max_size cache)%nat ->
  (Main.get t1 (cache_key mode message) cache).2 = None ->
  strip message' = strip message ->
  t3 - t2 <= inject_Z (Main.ttl cache) ->
  exists cache1 intent call,
    resolve_intent ollama_parse openrouter_parse t1 t2 mode message cache
    = (cache1, intent, [call])
    /\ resolve_intent ollama_parse openrouter_parse t3 t4 mode message' cache1
       = (cache1, intent, []).
Proof.
  intros Hwf Hpos Hmiss Hsame Hfresh.
  pose proof (IntentCache.get_wf t1 (cache_key mode message) cache Hwf)
    as Hwf1.
  destruct (IntentCacheProps.get_settings t1 (cache_key mode message) cache)
    as [Hsize Httl].
  assert (Hkey : cache_key mode message' = cache_key mode message).
  { unfold cache_key. now rewrite Hsame. }
  unfold resolve_intent at 1.
  destruct (Main.get t1 (cache_key mode message) cache) as [c1 [i|]];
    [discriminate Hmiss|].
  simpl in Hwf1, Hsize, Httl.
  assert (Hhit : forall intent,
             resolve_intent ollama_parse openrouter_parse t3 t4 mode message'
               (Main.set t2 (cache_key mode message) intent c1)
             = (Main.set t2 (cache_key mode message) intent c1, intent, [])).
  { intros intent. unfold resolve_intent. rewrite Hkey.
    rewrite IntentCacheProps.get_set_hit; [reflexivity|exact Hwf1|lia|].
    now rewrite Httl. }
  destruct (String.eqb mode "general"); eauto.
Qed.

(** X25.  The chat endpoint never answers with status 429: a request
    over the rate limit is answered with status 500, without any
    parser call and with the cache untouched, and every other failure
    has status 500 as well. *)
Theorem chat_never_answers_429 (t_limit t_get t_set : Q)
    (client_host : option string) (mode message : string)
    (buckets : gmap string (list Q))
    (cache : Main.LRUCacheTTL CommandIntent) :
  let outcome :=
    process_chat ollama_parse openrouter_parse execute http_exception_str
      t_limit t_get t_set client_host mode message buckets cache in
  (forall status_code detail,
      outcome.2 = HTTPException status_code detail -> status_code = 500%Z)
  /\ ((Main._allow_request t_limit (chat_client_id client_host) buckets).2
      = false ->
      outcome
      = ((Main._allow_request t_limit (chat_client_id client_host)
            buckets).1,
         cache, [],
         HTTPException 500
           (http_exception_str 429 "Too many requests, please slow down."))).
Proof.
  unfold process_chat.
  destruct (Main._allow_request t_limit (chat_client_id client_host) buckets)
    as [buckets1 allowed].
  destruct allowed; simpl negb; cbv iota.
  - split; [|discriminate].
    destruct (resolve_intent _ _ _ _ _ _ _) as [[cache1 intent] calls].
    destruct (execute mode intent); simpl; intros ? ? [=]; congruence.
  - split; [|reflexivity]. simpl. intros ? ? [=]. congruence.
Qed.

End Flow.

End ChatFlowProps.

(** ** The properties at concrete inputs *)
Module Instances.
Import PyStr PyLines Subprocess Models CommandExecutor Scenarios Fixtures.

Lemma is_safe_code_accepts_witness :
  (PythonExecutor.is_safe_code "print(open('notes.txt').read())").1 = true
  /\ exists pattern,
      In (pattern, (PythonExecutor.is_safe_code unsafe_script).2)
         PythonExecutor.dangerous_patterns
      /\ contains pattern (lower unsafe_script) = true.
Proof.
  split.
  - apply (PythonExecutorProps.is_safe_code_accepts
             "print(open('notes.txt').read())").
    repeat constructor.
  - apply (PythonExecutorProps.is_safe_code_accepts unsafe_script).
    vm_compute. reflexivity.
Defined.

Lemma execute_python_code_outcome_witness :
  (PythonExecutor.execute_python_code quiet home
     PythonExecutor.fallback_default None).2.1.1 = true
  /\ (PythonExecutor.execute_python_code timed_out home
        PythonExecutor.fallback_default None).2
     = (false, EmptyString, "Execution timed out after 5 seconds").
Proof.
  split.
  - apply (PythonExecutorProps.execute_python_code_outcome quiet home
             PythonExecutor.fallback_default).
    exists EmptyString, EmptyString. reflexivity.
  - destruct (PythonExecutorProps.execute_python_code_outcome timed_out home
                PythonExecutor.fallback_default) as (_ & _ & Htimeout & _).
    apply Htimeout. reflexivity.
Defined.


Lemma fallback_code_always_runs_witness :
  In (PythonExecutor.generate_python_code None "what is the mean?" None)
     [ PythonExecutor.fallback_average; PythonExecutor.fallback_list_files;
       PythonExecutor.fallback_default ]
  /\ (PythonExecutor.execute_with_python None quiet home
        "what is the mean?" None).1
     = [PythonExecutor.python_call
          (PythonExecutor.generate_python_code None "what is the mean?" None)
          home].
Proof.
  apply (PythonExecutorProps.fallback_code_always_runs None quiet home
           "what is the mean?" None).
  left. reflexivity.
Defined.


Lemma execute_command_success_witness :
  success (_execute_command expanduser quiet (command_params "pwd")).2 = true
  /\ (_execute_command expanduser timed_out (command_params "sleep 60")).2
     = result false
         ("⏰ Command timed out: " +:+ command_of (command_params "sleep 60"))
         EXECUTE_COMMAND.
Proof.
  split.
  - apply (CommandExecutorProps.execute_command_success expanduser quiet
             (command_params "pwd")).
    exists (argv_call expanduser ["pwd"]), EmptyString, EmptyString.
    split; vm_compute; reflexivity.
  - destruct (CommandExecutorProps.execute_command_success expanduser
                timed_out (command_params "sleep 60")) as [_ Htimeout].
    apply (Htimeout (argv_call expanduser ["sleep"; "60"])).
    + vm_compute. reflexivity.
    + reflexivity.
Defined.


Lemma capital_patterns_are_dead_witness :
  contains "kill -STOP" (lower "kill -STOP 4242") = false
  /\ contains "export PATH=" (lower "env; export PATH=/tmp") = false.
Proof.
  destruct CommandExecutorProps.capital_patterns_are_dead as [Hdead _].
  split; apply Hdead; vm_compute; discriminate.
Defined.

Lemma delete_file_confined_witness :
  (_delete_file expanduser resolve home (path_params "downloads") tree).1
    !! ["/"; "home"]
  = tree !! ["/"; "home"]
  /\ (_delete_file expanduser resolve home (path_params "/etc") tree).1
       !! ["/"]
     = tree !! ["/"].
Proof.
  split.
  - apply (CommandExecutorProps.delete_file_confined expanduser resolve home
             (path_params "downloads") tree ["/"; "home"]).
    vm_compute. intros H. destruct H as [k H]. discriminate H.
  - apply (CommandExecutorProps.delete_file_confined expanduser resolve home
             (path_params "/etc") tree ["/"]).
    vm_compute. intros H. destruct H as [k H]. discriminate H.
Defined.


Local Open Scope Q_scope.

Lemma allow_request_other_clients_witness :
  (Main._allow_request 5 "gen:127.0.0.1" full_table).1 !! chat_client
  = full_table !! chat_client.
Proof.
  apply (RateLimiterProps.allow_request_other_clients 5 "gen:127.0.0.1"
           chat_client full_table).
  vm_compute. discriminate.
Defined.

Lemma sliding_window_witness :
  exists dq,
    (Main._allow_request 35 chat_client full_table).1 !! chat_client = Some dq
    /\ (Main._allow_request 35 chat_client full_table).2
       = (length
            (List.filter
               (fun t => negb (Main.Qltb t (35 - Main.RATE_LIMIT_WINDOW_SEC)))
               (default [] (full_table !! chat_client)))
          <? Main.RATE_LIMIT_MAX_REQUESTS)%nat
    /\ dq = List.filter
              (fun t => negb (Main.Qltb t (35 - Main.RATE_LIMIT_WINDOW_SEC)))
              (default [] (full_table !! chat_client))
            ++ (if (Main._allow_request 35 chat_client full_table).2
                then [35] else [])
    /\ StronglySorted Qle dq
    /\ Forall (fun t => 35 - Main.RATE_LIMIT_WINDOW_SEC <= t /\ t <= 35) dq.
Proof.
  apply (RateLimiterProps.sliding_window 35 chat_client full_table).
  - vm_compute default.
    repeat (constructor; [|repeat constructor; vm_compute; discriminate]).
    constructor.
  - vm_compute default. repeat constructor; vm_compute; discriminate.
Defined.

Lemma full_table_bounded : Main.bounded full_table.
Proof.
  unfold full_table. apply RateLimiter.serve_bounded, RateLimiter.empty_bounded.
Defined.

Lemma admitted_once_oldest_leaves_witness :
  (Main._allow_request 31 chat_client full_table).2 = true.
Proof.
  apply (RateLimiterProps.admitted_once_oldest_leaves 31 chat_client 0
           [1; 2; 3; 4; 5; 6; 7; 8; 9] full_table full_table_bounded).
  - vm_compute. reflexivity.
  - vm_compute. reflexivity.
Defined.

Lemma get_after_set_witness :
  Main.get 100 "local:open docs" (Main.set 2 "local:open docs" 9%nat small_cache)
  = (Main.set 2 "local:open docs" 9%nat small_cache, Some 9%nat)
  /\ (Main.get 183 "local:open docs"
        (Main.set 2 "local:open docs" 9%nat small_cache)).2 = None.
Proof.
  destruct (IntentCacheProps.get_after_set 2 100 "local:open docs" 9%nat
              small_cache small_cache_wf) as [Hhit _]; [simpl; lia|].
  destruct (IntentCacheProps.get_after_set 2 183 "local:open docs" 9%nat
              small_cache small_cache_wf) as [_ Hlate]; [simpl; lia|].
  split.
  - apply Hhit. vm_compute. discriminate.
  - apply Hlate. vm_compute. reflexivity.
Defined.

Lemma get_other_keys_witness :
  OrderedDict.get "general:hello"
    (Main.store (Main.get 500 "local:list files" small_cache).1)
  = OrderedDict.get "general:hello" (Main.store small_cache).
Proof.
  apply (IntentCacheProps.get_other_keys 500 "local:list files"
           "general:hello" small_cache).
  discriminate.
Defined.

Lemma set_other_keys_witness :
  OrderedDict.get "local:list files"
    (Main.store (Main.set 3 "general:hello" 10%nat small_cache))
  = OrderedDict.get "local:list files" (Main.store small_cache).
Proof.
  apply (IntentCacheProps.set_other_keys 3 "general:hello" 10%nat
           "local:list files" small_cache small_cache_wf).
  - discriminate.
  - right. vm_compute. discriminate.
Defined.

Lemma open_folder_confined_witness :
  exists program normalized_path,
    FileHandlers.Popen ["xdg-open"; "/home/lia/Downloads"]
    = FileHandlers.Popen [program; path_str normalized_path]
    /\ In program ["xdg-open"; "open"; "explorer"]
    /\ resolve home `prefix_of` normalized_path
    /\ tree !! normalized_path = Some Directory
    /\ (FileHandlers._open_folder expanduser resolve home "Linux" obliging
          (path_params "downloads") tree).1
       = [FileHandlers.Popen ["xdg-open"; "/home/lia/Downloads"]].
Proof.
  apply (FileHandlersProps.open_folder_confined expanduser resolve home
           "Linux" obliging (path_params "downloads") tree
           (FileHandlers.Popen ["xdg-open"; "/home/lia/Downloads"])).
  vm_compute. left. reflexivity.
Defined.

Lemma open_file_confined_witness :
  exists normalized_path,
    In (FileHandlers.StartFile "/home/lia/notes.txt")
       [ FileHandlers.Popen ["xdg-open"; path_str normalized_path];
         FileHandlers.Popen ["open"; path_str normalized_path];
         FileHandlers.StartFile (path_str normalized_path) ]
    /\ resolve home `prefix_of` normalized_path
    /\ tree !! normalized_path = Some RegularFile
    /\ (FileHandlers._open_file expanduser resolve home "Windows" obliging
          (path_params "~/notes.txt") tree).1
       = [FileHandlers.StartFile "/home/lia/notes.txt"].
Proof.
  apply (FileHandlersProps.open_file_confined expanduser resolve home
           "Windows" obliging (path_params "~/notes.txt") tree
           (FileHandlers.StartFile "/home/lia/notes.txt")).
  vm_compute. left. reflexivity.
Defined.

Lemma rename_destination_unchecked_witness :
  exists source_path new_name,
    rename_params "notes.txt" "/tmp/notes.txt" !! "new_name" = Some new_name
    /\ FileHandlers.Rename ["/"; "home"; "lia"; "notes.txt"]
         ["/"; "tmp"; "notes.txt"]
       = FileHandlers.Rename source_path
           (FileHandlers.joinpath (FileHandlers.parent source_path) new_name)
    /\ resolve home `prefix_of` source_path
    /\ is_Some (tree !! source_path)
    /\ (startswith "/" new_name = true ->
        FileHandlers.joinpath (FileHandlers.parent source_path) new_name
        = FileHandlers.path_of new_name).
Proof.
  apply (FileHandlersProps.rename_destination_unchecked expanduser resolve
           home obliging (rename_params "notes.txt" "/tmp/notes.txt") tree
           (FileHandlers.Rename ["/"; "home"; "lia"; "notes.txt"]
              ["/"; "tmp"; "notes.txt"])).
  vm_compute. left. reflexivity.
Defined.

Lemma create_file_target_witness :
  (contains "/" (default "newfile.txt" (create_params "todo.md" "" !! "filename"))
   = false
   /\ contains backslash
        (default "newfile.txt" (create_params "todo.md" "" !! "filename"))
      = false
   /\ ["/"; "home"; "lia"; "Documents"; "todo.md"]
      = FileHandlers.joinpath
          (FileHandlers.joinpath (FileHandlers.path_of (expanduser "~"))
             "Documents")
          (default "newfile.txt" (create_params "todo.md" "" !! "filename")))
  \/ ((contains "/"
         (default "newfile.txt" (create_params "todo.md" "" !! "filename"))
       = true
       \/ contains backslash
            (default "newfile.txt" (create_params "todo.md" "" !! "filename"))
          = true)
      /\ resolve "/srv/data" `prefix_of`
           ["/"; "home"; "lia"; "Documents"; "todo.md"]).
Proof.
  apply (FileHandlersProps.create_file_target expanduser resolve "/srv/data"
           obliging forty_two (create_params "todo.md" "")
           ["/"; "home"; "lia"; "Documents"; "todo.md"]
           (FileHandlers.default_content "todo.md")).
  vm_compute. right. left. reflexivity.
Defined.

Lemma create_file_content_witness :
  (if truthy (default EmptyString
                (create_params "cats.txt" "a page about cats" !! "content"))
      && existsb
           (fun keyword =>
              contains keyword
                (lower (default EmptyString
                          (create_params "cats.txt" "a page about cats"
                             !! "content"))))
           FileHandlers.generation_keywords
   then obliging
          (FileHandlers.Generate
             (FileHandlers.creation_prompt
                (default EmptyString
                   (create_params "cats.txt" "a page about cats"
                      !! "content")))
             3000)
        = inl "Cats are small felines."
   else if truthy (default EmptyString
                     (create_params "cats.txt" "a page about cats"
                        !! "content"))
        then "Cats are small felines."
             = default EmptyString
                 (create_params "cats.txt" "a page about cats" !! "content")
        else "Cats are small felines."
             = FileHandlers.default_content
                 (default "newfile.txt"
                    (create_params "cats.txt" "a page about cats"
                       !! "filename"))).
Proof.
  apply (FileHandlersProps.create_file_content expanduser resolve home
           obliging forty_two (create_params "cats.txt" "a page about cats")
           ["/"; "home"; "lia"; "Documents"; "cats.txt"]
           "Cats are small felines.").
  vm_compute. right. right. left. reflexivity.
Defined.

Lemma fallback_parse_kinds_witness :
  original_message (OllamaService._fallback_parse "remove the file old.txt")
  = "remove the file old.txt"
  /\ intent_command_type
       (OllamaService._fallback_parse "remove the file old.txt")
     = DELETE_FILE
  /\ intent_command_type
       (OllamaService._fallback_parse "run rm -rf / for me")
     <> EXECUTE_COMMAND.
Proof.
  destruct (OllamaServiceProps.fallback_parse_kinds "remove the file old.txt")
    as (Hmessage & _ & _).
  destruct (OllamaServiceProps.fallback_parse_kinds "run rm -rf / for me")
    as (_ & _ & Hnever).
  split; [exact Hmessage|]. split; [vm_compute; reflexivity|].
  intros H. apply Hnever. left. symmetry. exact H.
Defined.


Lemma repeated_request_uses_cache_witness :
  exists cache1 intent call,
    ChatFlow.resolve_intent OllamaService._fallback_parse
      OllamaService._fallback_parse 10 11 "local" "open Downloads" empty_cache
    = (cache1, intent, [call])
    /\ ChatFlow.resolve_intent OllamaService._fallback_parse
         OllamaService._fallback_parse 100 101 "local" "  open Downloads "
         cache1
       = (cache1, intent, []).
Proof.
  apply (ChatFlowProps.repeated_request_uses_cache
           OllamaService._fallback_parse OllamaService._fallback_parse
           10 11 100 101 "local" "open Downloads" "  open Downloads "
           empty_cache).
  - split; [constructor | simpl; lia].
  - simpl. lia.
  - reflexivity.
  - vm_compute. reflexivity.
  - vm_compute. discriminate.
Defined.

Lemma chat_never_answers_429_witness :
  ChatFlow.process_chat OllamaService._fallback_parse
    OllamaService._fallback_parse agreeable status_and_detail
    12 12 12 (Some "127.0.0.1") "local" "open Downloads" full_table
    empty_cache
  = ((Main._allow_request 12 (ChatFlow.chat_client_id (Some "127.0.0.1"))
        full_table).1,
     empty_cache, [],
     ChatFlow.HTTPException 500
       (status_and_detail 429 "Too many requests, please slow down.")).
Proof.
  apply (ChatFlowProps.chat_never_answers_429 OllamaService._fallback_parse
           OllamaService._fallback_parse agreeable status_and_detail
           12 12 12 (Some "127.0.0.1") "local" "open Downloads" full_table
           empty_cache).
  vm_compute. reflexivity.
Defined.

End Instances.

(** X26.  Whatever lookups and insertions the program performs on
    [intent_cache], the cache keeps distinct keys, never holds more
    than 256 entries, and keeps its time to live of 180 seconds. *)
Theorem intent_cache_invariant {V : Type} (c : Main.LRUCacheTTL V) :
  Main.reached c ->
  NoDup (OrderedDict.keys (Main.store c))
  /\ (length (Main.store c) <= 256)%nat
  /\ Main.ttl c = 180.
Proof.
  intros Hreached.
  destruct (intent_cache_reached c Hreached) as ([Hnd Hlen] & Hsize & Httl).
  rewrite Hsize in Hlen. auto.
Qed.

Lemma intent_cache_invariant_witness :
  NoDup (OrderedDict.keys
           (Main.store
              (Main.get 5%Q "local:hi"
                 (Main.set 1%Q "local:hi" 7%nat Main.intent_cache)).1))
  /\ (length
        (Main.store
           (Main.get 5%Q "local:hi"
              (Main.set 1%Q "local:hi" 7%nat Main.intent_cache)).1)
      <= 256)%nat
  /\ Main.ttl
       (Main.get 5%Q "local:hi"
          (Main.set 1%Q "local:hi" 7%nat Main.intent_cache)).1
     = 180.
Proof.
  apply (intent_cache_invariant
           (Main.get 5%Q "local:hi"
              (Main.set 1%Q "local:hi" 7%nat Main.intent_cache)).1).
  apply Main.reached_get, Main.reached_set, Main.reached_new.
Defined.

(** ** Splitting and the extraction of generated code *)
Module ExtractProps.
Import PyStr PyLines PythonExecutor.

Lemma append_nil_r (s : string) : s +:+ EmptyString = s.
Proof.
  induction s as [|c s IH]; [reflexivity|].
  change (String c (s +:+ EmptyString) = String c s). now rewrite IH.
Qed.

Lemma append_assoc (a b c : string) : (a +:+ b) +:+ c = a +:+ (b +:+ c).
Proof.
  induction a as [|x a IH]; [reflexivity|].
  change (String x ((a +:+ b) +:+ c) = String x (a +:+ (b +:+ c))).
  now rewrite IH.
Qed.

Lemma length_append (a b : string) :
  String.length (a +:+ b) = (String.length a + String.length b)%nat.
Proof.
  induction a as [|x a IH]; [reflexivity|].
  change (S (String.length (a +:+ b)) = S (String.length a + String.length b)).
  now rewrite IH.
Qed.

Lemma startswith_app_self (p r : string) : startswith p (p +:+ r) = true.
Proof.
  induction p as [|c p IH]; [reflexivity|].
  change (Ascii.eqb c c && startswith p (p +:+ r) = true).
  now rewrite Ascii.eqb_refl, IH.
Qed.

(** What begins a text can be taken off it. *)
Lemma startswith_split (p s : string) :
  startswith p s = true -> exists r, s = p +:+ r.
Proof.
  revert s. induction p as [|c p IH]; intros s H.
  - now exists s.
  - destruct s as [|d s]; [discriminate|]. simpl in H.
    apply andb_true_iff in H as [Hc Hp]. apply Ascii.eqb_eq in Hc. subst d.
    destruct (IH s Hp) as [r ->]. now exists r.
Qed.

(** Passing over the characters of a separator that was matched. *)
Lemma split_on_aux_skip (sep x r : string) :
  split_on_aux sep (String.length x) (x +:+ r) = split_on_aux sep 0 r.
Proof.
  induction x as [|c x IH]; [reflexivity|]. exact IH.
Qed.

(** A separator at the head ends the piece at once. *)
Lemma split_on_aux_match (h : ascii) (sep' r : string) :
  split_on_aux (String h sep') 0 (String h sep' +:+ r)
  = (EmptyString,
     (split_on_aux (String h sep') 0 r).1
       :: (split_on_aux (String h sep') 0 r).2).
Proof.
  change (String h sep' +:+ r) with (String h (sep' +:+ r)).
  cbn [split_on_aux].
  change (String h (sep' +:+ r)) with (String h sep' +:+ r).
  rewrite startswith_app_self.
  replace (String.length (String h sep') - 1)%nat with (String.length sep')
    by (simpl; lia).
  rewrite split_on_aux_skip.
  destruct (split_on_aux (String h sep') 0 r). reflexivity.
Qed.

(** No separator begins within a text that lacks its first character. *)
Lemma split_on_aux_pass (h : ascii) (sep' a r : string) :
  contains (String h EmptyString) a = false ->
  split_on_aux (String h sep') 0 (a +:+ r)
  = (a +:+ (split_on_aux (String h sep') 0 r).1,
     (split_on_aux (String h sep') 0 r).2).
Proof.
  induction a as [|c a IH]; intros Hno.
  - change (EmptyString +:+ r) with r.
    destruct (split_on_aux (String h sep') 0 r). reflexivity.
  - simpl in Hno. apply orb_false_iff in Hno as [Hc Ha].
    rewrite andb_true_r in Hc.
    change (String c a +:+ r) with (String c (a +:+ r)).
    cbn [split_on_aux startswith]. rewrite Hc. simpl andb. cbv iota.
    rewrite (IH Ha). reflexivity.
Qed.

Lemma lstrip_app (a r : string) (c : ascii) :
  isspace c = false -> lstrip (a +:+ String c r) = lstrip a +:+ String c r.
Proof.
  intros Hc. induction a as [|d a IH].
  - simpl. now rewrite Hc.
  - change (String d a +:+ String c r) with (String d (a +:+ String c r)).
    simpl. destruct (isspace d); [exact IH | reflexivity].
Qed.

Lemma rstrip_cons (c : ascii) (s : string) :
  isspace c = false -> rstrip (String c s) = String c (rstrip s).
Proof. intros Hc. simpl. destruct (rstrip s); now rewrite ?Hc. Qed.

Lemma rstrip_app (a y : string) :
  rstrip y <> EmptyString -> rstrip (a +:+ y) = a +:+ rstrip y.
Proof.
  intros Hy. induction a as [|d a IH]; [reflexivity|].
  change (String d a +:+ y) with (String d (a +:+ y)).
  simpl. rewrite IH.
  change (String d a +:+ rstrip y) with (String d (a +:+ rstrip y)).
  destruct (a +:+ rstrip y) eqn:E; [|reflexivity].
  destruct a; [simpl in E; contradiction | discriminate E].
Qed.

Lemma contains_char_lstrip (h : ascii) (s : string) :
  contains (String h EmptyString) s = false ->
  contains (String h EmptyString) (lstrip s) = false.
Proof.
  induction s as [|c s IH]; [reflexivity|].
  intros H. simpl lstrip. destruct (isspace c); [|exact H].
  simpl in H. apply orb_false_iff in H as [_ H]. now apply IH.
Qed.

Lemma contains_char_rstrip (h : ascii) (s : string) :
  contains (String h EmptyString) s = false ->
  contains (String h EmptyString) (rstrip s) = false.
Proof.
  induction s as [|c s IH]; [reflexivity|].
  intros H. simpl in H. apply orb_false_iff in H as [Hc H].
  specialize (IH H). simpl rstrip.
  destruct (rstrip s) as [|d r].
  - destruct (isspace c); [reflexivity|]. simpl. now rewrite Hc.
  - simpl. simpl in IH. now rewrite Hc, IH.
Qed.

Lemma contains_app (p a r : string) : contains p (a +:+ p +:+ r) = true.
Proof.
  induction a as [|c a IH].
  - change (EmptyString +:+ p +:+ r) with (p +:+ r).
    destruct (p +:+ r) eqn:E; simpl; rewrite <- ?E, startswith_app_self;
      reflexivity.
  - change (String c a +:+ p +:+ r) with (String c (a +:+ p +:+ r)).
    simpl. rewrite IH. apply orb_true_r.
Qed.

(** Joining the pieces of a split with the separator gives the text
    back. *)
Lemma join_cons_head (sep : string) (c : ascii) (x : string) (l : list string) :
  join sep (String c x :: l) = String c (join sep (x :: l)).
Proof. destruct l; reflexivity. Qed.

Lemma join_split_on (h : ascii) (sep' : string) (s : string) :
  join (String h sep') (split_on (String h sep') s) = s.
Proof.
  unfold split_on.
  remember (String.length s) as n eqn:Hn.
  assert (Hle : (String.length s <= n)%nat) by lia. clear Hn.
  revert s Hle. induction n as [|n IH]; intros s Hle.
  - destruct s; [reflexivity | simpl in Hle; lia].
  - destruct s as [|c s]; [reflexivity|].
    cbn [split_on_aux].
    destruct (startswith (String h sep') (String c s)) eqn:Hm.
    + destruct (startswith_split _ _ Hm) as [r Hr].
      change (String h sep' +:+ r) with (String h (sep' +:+ r)) in Hr.
      injection Hr as -> ->.
      replace (String.length (String h sep') - 1)%nat
        with (String.length sep') by (simpl; lia).
      rewrite split_on_aux_skip.
      assert (Hr : (String.length r <= n)%nat).
      { simpl in Hle. rewrite length_append in Hle. lia. }
      specialize (IH r Hr).
      destruct (split_on_aux (String h sep') 0 r) as [cur rest].
      unfold join in *.
      change (String.concat (String h sep') (EmptyString :: cur :: rest))
        with (EmptyString +:+ String h sep'
                +:+ String.concat (String h sep') (cur :: rest)).
      rewrite IH. reflexivity.
    + assert (Hs : (String.length s <= n)%nat) by (simpl in Hle; lia).
      specialize (IH s Hs).
      destruct (split_on_aux (String h sep') 0 s) as [cur rest].
      rewrite join_cons_head. now rewrite IH.
Qed.

Lemma split_on_pair (sep s : string) :
  split_on sep s = (split_on_aux sep 0 s).1 :: (split_on_aux sep 0 s).2.
Proof. unfold split_on. destruct (split_on_aux sep 0 s). reflexivity. Qed.

Lemma split_on_aux_step (sep : string) (c : ascii) (s : string) :
  startswith sep (String c s) = false ->
  split_on_aux sep 0 (String c s)
  = (String c (split_on_aux sep 0 s).1, (split_on_aux sep 0 s).2).
Proof.
  intros H. cbn [split_on_aux]. rewrite H.
  destruct (split_on_aux sep 0 s). reflexivity.
Qed.

Lemma split_on_aux_stop (sep : string) (c : ascii) (s : string) :
  startswith sep (String c s) = true ->
  (split_on_aux sep 0 (String c s)).1 = EmptyString.
Proof.
  intros H. cbn [split_on_aux]. rewrite H.
  destruct (split_on_aux sep _ s). reflexivity.
Qed.

Lemma startswith_absent_char (h : ascii) (p s : string) :
  contains (String h EmptyString) s = false ->
  startswith (String h p) s = false.
Proof.
  destruct s as [|c s]; [reflexivity|]. simpl.
  intros H. apply orb_false_iff in H as [H _]. rewrite andb_true_r in H.
  now rewrite H.
Qed.

Lemma startswith_cons (a : ascii) (p s : string) :
  startswith (String a p) (String a s) = startswith p s.
Proof. simpl. now rewrite Ascii.eqb_refl. Qed.

Lemma append_nonempty_r (a b : string) :
  b <> EmptyString -> a +:+ b <> EmptyString.
Proof. destruct a; [trivial | discriminate]. Qed.

(** What [strip] leaves of a response with a fenced block. *)
Lemma strip_fenced (pre body post : string) :
  strip (pre +:+ fence_python +:+ body +:+ fence +:+ post)
  = lstrip pre +:+ fence_python +:+ body +:+ fence +:+ rstrip post.
Proof.
  unfold strip.
  change (fence_python +:+ body +:+ fence +:+ post)
    with (String "`" ("``python" +:+ body +:+ fence +:+ post)).
  rewrite lstrip_app by reflexivity.
  change (String "`" ("``python" +:+ body +:+ fence +:+ post))
    with (fence_python +:+ body +:+ fence +:+ post).
  assert (H3 : rstrip (fence +:+ post) = fence +:+ rstrip post).
  { change (fence +:+ post) with (String "`" (String "`" (String "`" post))).
    now rewrite !rstrip_cons by reflexivity. }
  assert (N3 : rstrip (fence +:+ post) <> EmptyString).
  { rewrite H3. discriminate. }
  assert (H2 : rstrip (body +:+ fence +:+ post)
               = body +:+ fence +:+ rstrip post).
  { now rewrite rstrip_app, H3. }
  assert (N2 : rstrip (body +:+ fence +:+ post) <> EmptyString).
  { rewrite H2. apply append_nonempty_r. discriminate. }
  assert (H1 : rstrip (fence_python +:+ body +:+ fence +:+ post)
               = fence_python +:+ body +:+ fence +:+ rstrip post).
  { now rewrite rstrip_app, H2. }
  rewrite rstrip_app, H1; [reflexivity|].
  rewrite H1. discriminate.
Qed.

(** The piece before the next opening fence, cut at the closing fence,
    is empty when the text begins with a closing fence and has no
    backtick after it. *)
Lemma closing_fence_first (rest : string) :
  contains "`" rest = false ->
  (split_on_aux fence 0
     (split_on_aux fence_python 0 (fence +:+ rest)).1).1 = EmptyString.
Proof.
  intros Hno.
  change (fence +:+ rest) with (String "`" (String "`" (String "`" rest))).
  destruct (startswith fence_python
              (String "`" (String "`" (String "`" rest)))) eqn:E.
  { now rewrite split_on_aux_stop. }
  rewrite (split_on_aux_step fence_python) by exact E. cbn [fst].
  rewrite (split_on_aux_step fence_python).
  2: { unfold fence_python. rewrite !startswith_cons.
       now apply startswith_absent_char. }
  cbn [fst]. rewrite (split_on_aux_step fence_python).
  2: { unfold fence_python. rewrite !startswith_cons.
       now apply startswith_absent_char. }
  cbn [fst].
  match goal with
  | |- context [String "`" (String "`" (String "`" ?z))] =>
      change (String "`" (String "`" (String "`" z)))
        with (String "`" "``" +:+ z)
  end.
  unfold fence. now rewrite split_on_aux_match.
Qed.

(** X27.  From a response that holds one fenced block opened by
    [```python], with no backtick before, inside or after the block,
    [_extract_code_from_response] returns the inside of the block,
    without the lines that are explanations and without surrounding
    whitespace; when no line of the block is an explanation, it returns
    the block itself, stripped. *)
Theorem extract_fenced_code (pre body post : string) :
  contains "`" pre = false ->
  contains "`" body = false ->
  contains "`" post = false ->
  _extract_code_from_response
    (pre +:+ fence_python +:+ body +:+ fence +:+ post)
  = strip (join nl (filter (fun line => is_explanation line = false)
                           (split_on nl body)))
  /\ (Forall (fun line => is_explanation line = false) (split_on nl body) ->
      _extract_code_from_response
        (pre +:+ fence_python +:+ body +:+ fence +:+ post)
      = strip body).
Proof.
  intros Hpre Hbody Hpost.
  assert (Hcode :
            _extract_code_from_response
              (pre +:+ fence_python +:+ body +:+ fence +:+ post)
            = strip (join nl (filter (fun line => is_explanation line = false)
                                     (split_on nl body)))).
  { unfold _extract_code_from_response. rewrite strip_fenced.
    rewrite contains_app.
    apply (contains_char_lstrip "`") in Hpre.
    apply (contains_char_rstrip "`") in Hpost.
    pose proof (closing_fence_first _ Hpost) as Hclose.
    rewrite (split_on_pair fence_python), (split_on_pair fence).
    unfold fence_python, fence in *.
    rewrite (split_on_aux_pass "`" "``python" (lstrip pre)) by exact Hpre.
    cbn [fst snd]. rewrite split_on_aux_match. cbn [fst snd item nth].
    rewrite (split_on_aux_pass "`" "``python" body) by exact Hbody.
    cbn [fst].
    rewrite (split_on_aux_pass "`" "``" body) by exact Hbody.
    cbn [fst]. rewrite Hclose, append_nil_r. reflexivity. }
  split; [exact Hcode|].
  intros Hclean. rewrite Hcode. f_equal.
  assert (Hkeep : filter (fun line => is_explanation line = false)
                         (split_on nl body) = split_on nl body).
  { revert Hclean. generalize (split_on nl body) as lines.
    induction 1 as [|line rest Hline _ IH]; [reflexivity|].
    rewrite filter_cons_True by exact Hline. now rewrite IH. }
  rewrite Hkeep.
  change nl with (String (ascii_of_nat 10) EmptyString).
  apply join_split_on.
Qed.

Lemma extract_fenced_code_witness :
  _extract_code_from_response
    (("Here is the script:" +:+ nl) +:+ fence_python
       +:+ (nl +:+ "print(6 * 7)" +:+ nl) +:+ fence +:+ " Run it.")
  = strip (nl +:+ "print(6 * 7)" +:+ nl).
Proof.
  apply (extract_fenced_code ("Here is the script:" +:+ nl)
           (nl +:+ "print(6 * 7)" +:+ nl) " Run it.");
    try (vm_compute; reflexivity).
  repeat constructor.
Defined.

End ExtractProps.

(** ** The file handlers at concrete inputs *)
Module HandlerInstances.
Import PyStr PyLines Models CommandExecutor FileHandlers Scenarios Fixtures.

Lemma read_write_confined_witness :
  (exists file_path,
      WriteText ["/"; "home"; "lia"; "new.txt"] "hello"
      = WriteText file_path
          (default EmptyString (write_params "new.txt" "hello" !! "content"))
      /\ resolve home `prefix_of` file_path
      /\ (_write_file expanduser resolve home obliging forty_two
            (write_params "new.txt" "hello")).1
         = [WriteText ["/"; "home"; "lia"; "new.txt"] "hello"])
  /\ (exists file_path,
        ReadText ["/"; "home"; "lia"; "notes.txt"] = ReadText file_path
        /\ resolve home `prefix_of` file_path
        /\ is_Some (tree !! file_path)
        /\ (_read_file expanduser resolve home obliging
              (path_params "notes.txt") tree).1
           = [ReadText ["/"; "home"; "lia"; "notes.txt"]]).
Proof.
  split.
  - apply (FileHandlersProps.read_write_confined expanduser resolve home
             obliging forty_two (write_params "new.txt" "hello") tree
             (WriteText ["/"; "home"; "lia"; "new.txt"] "hello")).
    vm_compute. left. reflexivity.
  - apply (FileHandlersProps.read_write_confined expanduser resolve home
             obliging forty_two (path_params "notes.txt") tree
             (ReadText ["/"; "home"; "lia"; "notes.txt"])).
    vm_compute. left. reflexivity.
Defined.

Lemma copy_move_confined_witness :
  (exists source_path dest_path,
      Copy2 ["/"; "home"; "lia"; "notes.txt"] ["/"; "home"; "lia"; "copy.txt"]
      = match tree !! source_path with
        | Some RegularFile => Copy2 source_path dest_path
        | _ => CopyTree source_path dest_path
        end
      /\ resolve home `prefix_of` source_path
      /\ resolve home `prefix_of` dest_path
      /\ is_Some (tree !! source_path))
  /\ (exists source_path dest_path,
        Move "/home/lia/Downloads" "/home/lia/Archive"
        = Move (path_str source_path) (path_str dest_path)
        /\ resolve home `prefix_of` source_path
        /\ resolve home `prefix_of` dest_path
        /\ is_Some (tree !! source_path)).
Proof.
  split.
  - apply (FileHandlersProps.copy_move_confined expanduser resolve home
             obliging (copy_params "notes.txt" "copy.txt") tree
             (Copy2 ["/"; "home"; "lia"; "notes.txt"]
                ["/"; "home"; "lia"; "copy.txt"])).
    vm_compute. left. reflexivity.
  - apply (FileHandlersProps.copy_move_confined expanduser resolve home
             obliging (copy_params "downloads" "Archive") tree
             (Move "/home/lia/Downloads" "/home/lia/Archive")).
    vm_compute. left. reflexivity.
Defined.

End HandlerInstances.
